(** * NotesManager: a shallow embedding of [Notes.py]

    [Notes.py] is a command-line tool: it scans a directory tree for note
    files, pipes the candidates to the external selector [fzf], and hands
    the chosen file to a viewer chosen by extension; two further commands
    create a note or a project folder from a fixed template.

    The definitions come first.
    - [Py]: the string methods of Python the program calls ([str.lower],
      [str.strip], [str.replace], [str.endswith], [str.join]) and the
      functions [join] and [splitext] of [posixpath].
    - [Markup]: how [console.print] of [rich] reads the tags of a line,
      and when it raises [MarkupError].
    - [Fs]: the file system as a tree of directories, regular files and
      entries that are neither, with [os.path.exists], [open(path, "w")],
      [os.makedirs], [os.scandir] and [os.walk], and the errors they
      raise.
    - [Run]: a state and exception monad over a [world] (the file
      system, the programs launched so far, the lines written to the
      console); what an external program does is given by the
      [environment].
    - [Notes]: the functions of [Notes.py], one definition each, with
      the names of the source.
    - [Trace], [Scenario], [Spec]: the worlds a step leaves, a home
      directory to run the program in, and the words of the
      specification.
    - [Shape]: well-formed trees, the label of a candidate, and the
      outcomes the further properties speak of.

    The facts follow: [Checks] runs the embedding on examples,
    [Printing] says which lines of the program are printed whatever
    they hold, [Dispatch], [Select], [Scan] and [Create] hold the
    properties of the dispatcher, the selector adapters, the scanner
    and the two commands that create, and [FsFacts] what they need of
    the file system. [Flow] follows the commands through their
    branches, [PathFacts] and [Tree] relate path strings to well-formed
    trees, [Layout] says what the three scans return, [Scaffold] and
    [Project] what [create_project] builds, and [Labels] goes from a
    label back to a candidate.

    Strings are Rocq strings, that is sequences of bytes: a non-ASCII
    character of a Python [str] is the sequence of its UTF-8 bytes, and
    [lower] and [strip] act on the ASCII range only. *)

From stdpp Require Import base strings gmap list pretty.
From Stdlib Require Import ZArith Ascii String Lia.

Open Scope string_scope.

(** ** Python strings and [posixpath] *)

Module Py.

(** [s.startswith(p)] *)
Definition startswith (s p : string) : bool := String.prefix p s.

(** [s.endswith(suf)]: the last [len(suf)] characters of [s] are [suf];
    the empty suffix ends every string. *)
Definition endswith (s suf : string) : bool :=
  let n := String.length s in
  let k := String.length suf in
  (k <=? n)%nat && String.eqb (String.substring (n - k) k s) suf.

(** [s[i:]] *)
Definition drop (i : nat) (s : string) : string :=
  String.substring i (String.length s - i) s.

(** [s[:i]] *)
Definition take (i : nat) (s : string) : string := String.substring 0 i s.

Definition lower_char (c : ascii) : ascii :=
  let n := nat_of_ascii c in
  if ((65 <=? n) && (n <=? 90))%nat then ascii_of_nat (n + 32) else c.

(** [s.lower()] *)
Fixpoint lower (s : string) : string :=
  match s with
  | EmptyString => EmptyString
  | String c s' => String (lower_char c) (lower s')
  end.

(** [c.isspace()] on the ASCII range: tab, line feed, vertical tab, form
    feed, carriage return, the four separators 28 to 31, and space. *)
Definition isspace (c : ascii) : bool :=
  let n := nat_of_ascii c in
  ((9 <=? n) && (n <=? 13) || (28 <=? n) && (n <=? 32))%nat.

Fixpoint lstrip (s : string) : string :=
  match s with
  | EmptyString => EmptyString
  | String c s' => if isspace c then lstrip s' else s
  end.

Fixpoint rstrip (s : string) : string :=
  match s with
  | EmptyString => EmptyString
  | String c s' =>
      match rstrip s' with
      | EmptyString => if isspace c then EmptyString else String c EmptyString
      | r => String c r
      end
  end.

(** [s.strip()] *)
Definition strip (s : string) : string := rstrip (lstrip s).

(** [s.rstrip(c)] for a single character [c] *)
Fixpoint rstrip_char (c : ascii) (s : string) : string :=
  match s with
  | EmptyString => EmptyString
  | String a s' =>
      match rstrip_char c s' with
      | EmptyString => if Ascii.eqb a c then EmptyString else String a EmptyString
      | r => String a r
      end
  end.

(** [sep.join(l)] *)
Definition join (sep : string) (l : list string) : string := String.concat sep l.

(** [s.replace(old, new)] for a non-empty [old]: the occurrences of [old]
    are replaced from the left, and the scan resumes after each one.
    [skip] counts the characters of the current occurrence still to pass. *)
Fixpoint replace_from (old new : string) (skip : nat) (s : string) : string :=
  match s with
  | EmptyString => EmptyString
  | String c s' =>
      match skip with
      | S k => replace_from old new k s'
      | O =>
          if String.prefix old s
          then new ++ replace_from old new (String.length old - 1) s'
          else String c (replace_from old new 0 s')
      end
  end.

(** With an empty [old], Python puts [new] before every character and at
    the end. *)
Fixpoint intersperse (new s : string) : string :=
  match s with
  | EmptyString => new
  | String c s' => new ++ String c (intersperse new s')
  end.

(** [s.replace(old, new)] *)
Definition replace (s old new : string) : string :=
  match old with
  | EmptyString => intersperse new s
  | _ => replace_from old new 0 s
  end.

(** [s.rfind(c)] for a character [c]: the index of the last occurrence,
    [-1] when there is none. *)
Fixpoint rfind (c : ascii) (s : string) : Z :=
  match s with
  | EmptyString => (-1)%Z
  | String a s' =>
      let r := rfind c s' in
      if (0 <=? r)%Z then (r + 1)%Z
      else if Ascii.eqb a c then 0%Z else (-1)%Z
  end.

(** [s.find(c, start)]: the index of the first occurrence at or after
    [start], [-1] when there is none. *)
Definition find_from (c : ascii) (start : nat) (s : string) : Z :=
  match String.index start (String c EmptyString) s with
  | Some i => Z.of_nat i
  | None => (-1)%Z
  end.

(** [s.split("/")] *)
Fixpoint split_slash (s : string) : list string :=
  match s with
  | EmptyString => [EmptyString]
  | String c s' =>
      if Ascii.eqb c "/" then EmptyString :: split_slash s'
      else match split_slash s' with
           | [] => [String c EmptyString]
           | w :: ws => String c w :: ws
           end
  end.

(** A name with no slash in it. *)
Fixpoint plain (s : string) : bool :=
  match s with
  | EmptyString => true
  | String c s' => negb (Ascii.eqb c "/") && plain s'
  end.

(** *** [posixpath] *)

(** [os.path.join(a, b)]: an absolute [b] replaces [a]; otherwise [b] is
    appended, after a slash unless [a] is empty or ends with one. *)
Definition path_join (a b : string) : string :=
  if startswith b "/" then b
  else if String.eqb a "" || endswith a "/" then a ++ b
  else a ++ "/" ++ b.

(** The loop of [genericpath._splitext] that skips the leading dots of the
    file name: is there a character other than a dot in [p[i:i+n]]? *)
Fixpoint has_non_dot (n i : nat) (p : string) : bool :=
  match n with
  | O => false
  | S n' =>
      match String.get i p with
      | Some c => if Ascii.eqb c "." then has_non_dot n' (S i) p else true
      | None => true
      end
  end.

(** [os.path.splitext(p)]: the extension starts at the last dot, provided
    that dot comes after the last slash and after a character of the
    file name that is not a dot. *)
Definition splitext (p : string) : string * string :=
  let sepIndex := rfind "/" p in
  let dotIndex := rfind "." p in
  if (sepIndex <? dotIndex)%Z then
    let filenameIndex := Z.to_nat (sepIndex + 1) in
    if has_non_dot (Z.to_nat dotIndex - filenameIndex) filenameIndex p
    then (take (Z.to_nat dotIndex) p, drop (Z.to_nat dotIndex) p)
    else (p, "")
  else (p, "").

End Py.

(** ** Exceptions and results *)

(** The exceptions the program can meet. [OSError] stands for the
    subclasses raised by the file system and by a program that cannot be
    started; [CalledProcessError] carries the exit status and the
    command; [MarkupError] is the one of [rich]. *)
Inductive oserror : Type :=
  | FileNotFoundError
  | FileExistsError
  | NotADirectoryError
  | IsADirectoryError.

Inductive exn : Type :=
  | StopIteration
  | CalledProcessError (returncode : Z) (cmd : list string)
  | OSError (e : oserror)
  | TypeError
  | MarkupError.

(** What a call does: it returns a value or raises. *)
Inductive outcome (A : Type) : Type :=
  | Returns (a : A)
  | Raises (e : exn).
Arguments Returns {A} a.
Arguments Raises {A} e.

(** [repr(s)] for a string with no quote, backslash or control
    character in it, and [repr(l)] for a list of such strings. *)
Definition repr_str (s : string) : string := "'" ++ s ++ "'".

Definition repr_list (l : list string) : string :=
  "[" ++ String.concat ", " (map repr_str l) ++ "]".

(** [str(e)] for a [CalledProcessError] with a positive exit status;
    the class name stands for the text of the others. *)
Definition str_exn (e : exn) : string :=
  match e with
  | CalledProcessError rc cmd =>
      "Command '" ++ repr_list cmd ++ "' returned non-zero exit status "
      ++ pretty rc ++ "."
  | StopIteration => "StopIteration"
  | OSError _ => "OSError"
  | TypeError => "TypeError"
  | MarkupError => "MarkupError"
  end.

(** ** Console markup *)

(** [console.print] of [rich] reads its text as markup
    ([rich.markup.render]). A tag is an opening bracket, a character
    among the small letters, [#], [/] and [@], then characters other
    than an opening bracket up to the first closing bracket; the
    backslashes in a row before the tag are its escapes, and an odd
    number of them makes it plain text. A tag whose name starts with a
    slash closes an open tag, and a closing tag that matches no open tag
    raises [MarkupError]. The text is read here one character at a
    time. *)
Module Markup.

Definition backslash : ascii := "092".

(** The first character of a tag: a small letter, [#], [/] or [@]. *)
Definition tag_start (c : ascii) : bool :=
  let n := nat_of_ascii c in
  ((97 <=? n) && (n <=? 122))%nat
  || Ascii.eqb c "#" || Ascii.eqb c "/" || Ascii.eqb c "@".

(** An open tag on the stack: its name in normal form, its parameters. *)
Definition tag : Type := string * option string.

(** [tag_text.partition("=")]: the text before the first [=], and the
    text after it when there is one. *)
Fixpoint partition_eq (s : string) : string * option string :=
  match s with
  | EmptyString => (EmptyString, None)
  | String c s' =>
      if Ascii.eqb c "=" then (EmptyString, Some s')
      else let '(name, parameters) := partition_eq s' in (String c name, parameters)
  end.

(** [pop_style(style_name)]: the open tag of that name nearest to the top
    is taken off the stack; the top is the head of the list. *)
Fixpoint pop_style (style_name : string) (stack : list tag) : option (tag * list tag) :=
  match stack with
  | [] => None
  | t :: stack' =>
      if String.eqb t.1 style_name then Some (t, stack')
      else match pop_style style_name stack' with
           | Some (found, rest) => Some (found, t :: rest)
           | None => None
           end
  end.

(** Where the reading stands: in plain text, after a number of
    backslashes in a row; just after an opening bracket, which a number
    of backslashes precede; or in what may be a tag, of which the text
    so far is kept, with the number of backslashes it ends with. *)
Inductive mode : Type :=
  | Text (backslashes : nat)
  | Bracket (escapes : nat)
  | Inside (escapes : nat) (tag_text : string) (backslashes : nat).

(** A place where no closing tag is being read. *)
Definition safe (m : mode) : bool :=
  match m with
  | Inside _ (String a _) _ => negb (Ascii.eqb a "/")
  | Inside _ EmptyString _ => false
  | _ => true
  end.

Section Render.

(** [Style.normalize], and whether [ast.literal_eval] accepts the
    parameters of a handler tag, are taken as given. *)
Context (normalize : string → string) (meta_parses : string → bool).

(** What is done with the tag a closing tag has taken off the stack: the
    parameters of a handler tag ([@click=...]) are parsed, if it has
    any, and a failure is a [MarkupError]. *)
Definition closes (open_tag : tag) : bool :=
  if Py.startswith open_tag.1 "@" then
    match open_tag.2 with
    | Some parameters => String.eqb parameters "" || meta_parses parameters
    | None => true
    end
  else true.

(** A closing tag: with no name it closes the tag on top, with a name
    the open tag of that name nearest to the top. [None] stands for
    [MarkupError]. *)
Definition close (name : string) (stack : list tag) : option (list tag) :=
  let style_name := Py.strip (Py.drop 1 name) in
  let popped :=
    if String.eqb style_name "" then
      match stack with
      | [] => None
      | t :: stack' => Some (t, stack')
      end
    else pop_style (normalize style_name) stack in
  match popped with
  | Some (open_tag, stack') => if closes open_tag then Some stack' else None
  | None => None
  end.

(** A tag that is complete: plain text after an odd number of
    backslashes, else a closing tag or an opening tag. *)
Definition apply_tag (escapes : nat) (tag_text : string) (stack : list tag)
    : option (list tag) :=
  if Nat.odd escapes then Some stack
  else
    let '(name, parameters) := partition_eq tag_text in
    if Py.startswith name "/" then close name stack
    else Some ((normalize name, parameters) :: stack).

(** One character. A tag starts at a bracket followed by a character
    that can start one, runs to the first closing bracket, and is given
    up at an opening bracket, where another may start. *)
Definition step (st : mode * list tag) (c : ascii) : option (mode * list tag) :=
  let '(m, stack) := st in
  match m with
  | Text b =>
      if Ascii.eqb c backslash then Some (Text (S b), stack)
      else if Ascii.eqb c "[" then Some (Bracket b, stack)
      else Some (Text 0, stack)
  | Bracket e =>
      if tag_start c then Some (Inside e (String c EmptyString) 0, stack)
      else if Ascii.eqb c "[" then Some (Bracket 0, stack)
      else if Ascii.eqb c backslash then Some (Text 1, stack)
      else Some (Text 0, stack)
  | Inside e t b =>
      if Ascii.eqb c "]" then
        match apply_tag e t stack with
        | Some stack' => Some (Text 0, stack')
        | None => None
        end
      else if Ascii.eqb c "[" then Some (Bracket b, stack)
      else Some (Inside e (t ++ String c EmptyString)
                   (if Ascii.eqb c backslash then S b else 0), stack)
  end.

Fixpoint run (st : mode * list tag) (s : string) : option (mode * list tag) :=
  match s with
  | EmptyString => Some st
  | String c s' =>
      match step st c with
      | Some st' => run st' s'
      | None => None
      end
  end.

(** The text is rendered: no [MarkupError]. Tags left open at the end
    are closed without more ado. *)
Definition accepts (text : string) : bool :=
  match run (Text 0, []) text with Some _ => true | None => false end.

End Render.

End Markup.

(** ** The file system *)

Module Fs.

(** A directory lists its entries by name, in the order [os.scandir]
    reports them; a regular file has a content; [Other] is an entry that
    is there and is neither: a FIFO, a socket, a device. Symbolic links
    are not part of the tree: an entry is what its name leads to.
    Permissions, quotas and the lengths of names are not modelled
    either: an operation fails for the shape of the tree only. *)
#[local] Unset Elimination Schemes.
Inductive node : Type :=
  | File (content : string)
  | Dir (entries : list (string * node))
  | Other.
#[local] Set Elimination Schemes.

Definition is_dir (o : option node) : bool :=
  match o with Some (Dir _) => true | _ => false end.

Definition is_file (o : option node) : bool :=
  match o with Some (File _) => true | _ => false end.

(** The entry called [name], the first one if the list repeats a name. *)
Fixpoint entry (name : string) (es : list (string * node)) : option node :=
  match es with
  | [] => None
  | (k, n) :: es' => if String.eqb k name then Some n else entry name es'
  end.

(** The node at a canonical path, a list of entry names from the root. *)
Fixpoint get (n : node) (cs : list string) : option node :=
  match cs with
  | [] => Some n
  | c :: cs' =>
      match n with
      | Dir es => match entry c es with Some ch => get ch cs' | None => None end
      | File _ | Other => None
      end
  end.

(** Replace the entry [name] by [f] of it, or add [f None] at the end. *)
Fixpoint upsert (name : string) (f : option node -> node)
    (es : list (string * node)) : list (string * node) :=
  match es with
  | [] => [(name, f None)]
  | (k, n) :: es' =>
      if String.eqb k name then (k, f (Some n)) :: es'
      else (k, n) :: upsert name f es'
  end.

(** Put [v] at a canonical path; directories missing on the way are
    created, an entry on the way that is not a directory blocks the
    change. *)
Fixpoint put (cs : list string) (v : node) (n : node) : node :=
  match cs with
  | [] => v
  | c :: cs' =>
      match n with
      | Dir es =>
          Dir (upsert c (fun o => put cs' v
                                    (match o with Some ch => ch | None => Dir [] end)) es)
      | File _ | Other => n
      end
  end.

(** Path resolution. The components of a path string are taken from left
    to right; [acc] is the canonical path reached so far, reversed. A
    component is entered from a directory only; an empty component and
    [.] stay there, [..] goes to the parent (the root is its own parent),
    a name goes to the entry of that name, which need not exist when it
    is the last one. Relative paths start at the root: the working
    directory of the process is taken to be [/]. *)
Fixpoint resolve (fs : node) (acc : list string) (cs : list string)
    : option (list string) :=
  match cs with
  | [] => Some (rev acc)
  | c :: rest =>
      if is_dir (get fs (rev acc)) then
        if String.eqb c "" || String.eqb c "." then resolve fs acc rest
        else if String.eqb c ".." then resolve fs (tail acc) rest
        else resolve fs (c :: acc) rest
      else None
  end.

(** The canonical path a path string names, when the directories on the
    way to it exist. The empty string names nothing. *)
Definition canon (fs : node) (path : string) : option (list string) :=
  if String.eqb path "" then None
  else resolve fs [] (Py.split_slash path).

(** A path that can be created or opened: the directories on the way to
    it exist. *)
Definition reachable (fs : node) (path : string) : bool :=
  match canon fs path with Some _ => true | None => false end.

(** The place a canonical path, given reversed, names: the root, or an
    entry of an existing directory. *)
Definition placed (fs : node) (acc : list string) : Prop :=
  match acc with
  | [] => True
  | _ :: parent => is_dir (get fs (rev parent)) = true
  end.

(** The error of a path that does not resolve, as the system calls
    report it: [ENOTDIR] when a component is entered from an entry that
    is there and is not a directory, [ENOENT] when it is entered from
    nothing, and when the last name is that of no entry. *)
Fixpoint resolve_error (fs : node) (acc : list string) (cs : list string) : oserror :=
  match cs with
  | [] => FileNotFoundError
  | c :: rest =>
      match get fs (rev acc) with
      | Some (Dir _) =>
          if String.eqb c "" || String.eqb c "." then resolve_error fs acc rest
          else if String.eqb c ".." then resolve_error fs (tail acc) rest
          else resolve_error fs (c :: acc) rest
      | Some _ => NotADirectoryError
      | None => FileNotFoundError
      end
  end.

(** The error for a path string that names nothing; the empty string
    gives [ENOENT]. *)
Definition errno (fs : node) (path : string) : oserror :=
  if String.eqb path "" then FileNotFoundError
  else resolve_error fs [] (Py.split_slash path).

(** The node a path string names. *)
Definition lookup (fs : node) (path : string) : option node :=
  match canon fs path with
  | Some cs => get fs cs
  | None => None
  end.

(** [os.path.exists(path)] *)
Definition exists_ (fs : node) (path : string) : bool :=
  match lookup fs path with Some _ => true | None => false end.

(** [os.path.isdir(path)] and [os.path.isfile(path)] *)
Definition isdir (fs : node) (path : string) : bool := is_dir (lookup fs path).
Definition isfile (fs : node) (path : string) : bool := is_file (lookup fs path).

(** The content of the file at [path]. *)
Definition read (fs : node) (path : string) : option string :=
  match lookup fs path with
  | Some (File c) => Some c
  | _ => None
  end.

(** [open(path, "w")], [write(content)], close, for a path that ends
    with a name, as the paths the program opens do: the file is created
    or truncated and gets [content]. The directory that is to hold it
    must exist, and the path must not name a directory. What is written
    to a FIFO or to a device goes to its reader and leaves the tree as
    it is. *)
Definition write (fs : node) (path content : string) : outcome node :=
  match canon fs path with
  | None => Raises (OSError (errno fs path))
  | Some cs =>
      match get fs cs with
      | Some (Dir _) => Raises (OSError IsADirectoryError)
      | Some Other => Returns fs
      | Some (File _) | None => Returns (put cs (File content) fs)
      end
  end.

(** [os.makedirs(path)]: the directories of the path are created from the
    left as far as they are missing. [fresh] tells whether the directory
    reached last was created by this call: the call raises
    [FileExistsError] when the path names something that was there.
    This follows [os.makedirs] where what is missing on the path is a
    run of names at its end, as it is for a project name that is a
    name and the folders of the templates; with [.] or [..] after a
    name that is missing, [os.makedirs] can create a directory and then
    raise, which is not followed here. *)
Fixpoint makedirs_from (fs : node) (acc : list string) (fresh : bool)
    (cs : list string) : outcome node :=
  match cs with
  | [] => if fresh then Returns fs else Raises (OSError FileExistsError)
  | c :: rest =>
      if String.eqb c "" || String.eqb c "." then makedirs_from fs acc fresh rest
      else if String.eqb c ".." then makedirs_from fs (tail acc) false rest
      else
        match get fs (rev (c :: acc)) with
        | Some (Dir _) => makedirs_from fs (c :: acc) false rest
        | Some (File _) | Some Other =>
            Raises (OSError (match rest with
                             | [] => FileExistsError
                             | _ => NotADirectoryError
                             end))
        | None =>
            makedirs_from (put (rev (c :: acc)) (Dir []) fs) (c :: acc) true rest
        end
  end.

Definition makedirs (fs : node) (path : string) : outcome node :=
  if String.eqb path "" then Raises (OSError FileNotFoundError)
  else makedirs_from fs [] false (Py.split_slash path).

(** An entry of [os.scandir(directory)]: [entry.name], [entry.path],
    [entry.is_dir()], [entry.is_file()]. *)
Record dir_entry : Type := {
  de_name : string;
  de_path : string;
  de_is_dir : bool;
  de_is_file : bool
}.

Definition dir_entry_of (directory : string) (e : string * node) : dir_entry :=
  {| de_name := e.1;
     de_path := Py.path_join directory e.1;
     de_is_dir := is_dir (Some e.2);
     de_is_file := is_file (Some e.2) |}.

(** [os.scandir(directory)]: the entries of a directory;
    [NotADirectoryError] for a path that names something else or goes
    through something else, [FileNotFoundError] for a path on which an
    entry is missing. *)
Definition scandir (fs : node) (directory : string) : outcome (list dir_entry) :=
  match lookup fs directory with
  | Some (Dir es) => Returns (map (dir_entry_of directory) es)
  | Some (File _) | Some Other => Raises (OSError NotADirectoryError)
  | None => Raises (OSError (errno fs directory))
  end.

(** The names of the sub-directories and of the other entries of a
    directory, as [os.walk] sorts them: an entry that is not a directory
    is a file name to it, regular file or not. *)
Definition dirnames (es : list (string * node)) : list string :=
  map fst (filter (fun e => is_dir (Some e.2)) es).

Definition filenames (es : list (string * node)) : list string :=
  map fst (filter (fun e => negb (is_dir (Some e.2))) es).

(** [os.walk(top)] from the node [top] names: the triple of the directory
    itself first, then the walks of its sub-directories in order, each
    under the path [os.path.join(top, name)]. *)
Fixpoint walk_node (top : string) (n : node) {struct n}
    : list (string * list string * list string) :=
  match n with
  | File _ | Other => []
  | Dir es =>
      (top, dirnames es, filenames es) ::
      (fix walk_entries (l : list (string * node)) :=
         match l with
         | [] => []
         | (name, ch) :: l' =>
             (walk_node (Py.path_join top name) ch ++ walk_entries l')%list
         end) es
  end.

(** [os.walk(top)]. The errors of [os.scandir] are ignored ([onerror] is
    not given): a path that does not exist, or names something that is
    not a directory, yields no triple. *)
Definition walk (fs : node) (top : string) : list (string * list string * list string) :=
  match lookup fs top with
  | Some n => walk_node top n
  | None => []
  end.

End Fs.

(** ** The world the program runs in *)

Module Run.

(** How [subprocess] starts a program: [subprocess.run] and
    [check_output] wait for it to exit; [Popen] followed by
    [communicate] waits as well; [Popen] alone, in a process group or
    session of its own, does not. *)
Inductive waiting : Type :=
  | Blocking
  | Detached.

(** A program started by the tool: the argument vector, the text sent to
    its standard input if any, the working directory if one was given. *)
Record launch : Type := {
  argv : list string;
  stdin : option string;
  cwd : option string;
  wait : waiting
}.

(** The state a command acts on: the file system, the programs launched
    so far (oldest first), and the lines printed (oldest first), each as
    it was given to [console.print] or [click.secho]. *)
Record world : Type := {
  fs : Fs.node;
  procs : list launch;
  console : list string
}.

(** What a program that was waited for leaves: its exit status, what it
    wrote to its standard output, and the file system as it left it. *)
Record completed : Type := {
  returncode : Z;
  stdout : string;
  fs_after : Fs.node
}.

(** What the program cannot decide: the home directories ([home_of None]
    is the one of the current user, from [HOME] or the password
    database; [home_of (Some u)] the one of user [u]), the variable
    [EDITOR], and what a program does when started in a given world;
    [exec] gives [None] when the program cannot be started. With them
    come the two functions the reading of markup takes as given: the
    normal form [Style.normalize] gives a style definition, and whether
    the parameters of a handler tag can be parsed. *)
Record environment : Type := {
  home_of : option string -> option string;
  EDITOR : option string;
  exec : world -> launch -> option completed;
  style_normal_form : string -> string;
  meta_parses : string -> bool
}.

(** A command: from a world to a result, or an exception, and a world. *)
Definition M (A : Type) : Type := world -> outcome A * world.

#[export] Instance M_ret : MRet M := fun A a w => (Returns a, w).

#[export] Instance M_bind : MBind M := fun A B f m w =>
  match m w with
  | (Returns a, w') => f a w'
  | (Raises e, w') => (Raises e, w')
  end.

Definition raise {A : Type} (e : exn) : M A := fun w => (Raises e, w).

(** [try: body except: handler]: [handler e] is [None] for an exception
    the clause does not name. *)
Definition try_except {A : Type} (body : M A) (handler : exn -> option (M A)) : M A :=
  fun w =>
    match body w with
    | (Returns a, w') => (Returns a, w')
    | (Raises e, w') =>
        match handler e with
        | Some h => h w'
        | None => (Raises e, w')
        end
    end.

(** [except subprocess.CalledProcessError] *)
Definition on_CalledProcessError {A : Type} (h : exn -> M A) (e : exn) : option (M A) :=
  match e with
  | CalledProcessError _ _ => Some (h e)
  | _ => None
  end.

(** [for x in l: body x] *)
Fixpoint for_each {A : Type} (l : list A) (body : A -> M unit) : M unit :=
  match l with
  | [] => mret tt
  | x :: l' => body x ;; for_each l' body
  end.

(** Read the file system. *)
Definition reading {A : Type} (f : Fs.node -> A) : M A :=
  fun w => (Returns (f (fs w)), w).

(** Change the file system, or raise what the operation raises. *)
Definition changing (f : Fs.node -> outcome Fs.node) : M unit :=
  fun w =>
    match f (fs w) with
    | Returns fs' => (Returns tt, {| fs := fs'; procs := procs w; console := console w |})
    | Raises e => (Raises e, w)
    end.

(** [click.secho(text, fg=...)]: one more line. The terminal is taken to
    accept what is written to it. *)
Definition secho (text : string) : M unit :=
  fun w =>
    (Returns tt, {| fs := fs w; procs := procs w; console := (console w ++ [text])%list |}).

(** [console.print(text)]: the text is read as markup, and [MarkupError]
    is raised, with nothing printed, if it has a closing tag that
    closes nothing; else it is one more line. *)
Definition print (env : environment) (text : string) : M unit :=
  fun w =>
    if Markup.accepts (style_normal_form env) (meta_parses env) text
    then (Returns tt,
          {| fs := fs w; procs := procs w; console := (console w ++ [text])%list |})
    else (Raises MarkupError, w).

Section Subprocess.

Context (env : environment).

(** Start a program and wait for it: it is recorded, and the file
    system is as the program left it. A program that cannot be started
    raises [FileNotFoundError] and records nothing. *)
Definition spawn_wait (l : launch) : M completed :=
  fun w =>
    match exec env w l with
    | Some c =>
        (Returns c, {| fs := fs_after c; procs := (procs w ++ [l])%list; console := console w |})
    | None => (Raises (OSError FileNotFoundError), w)
    end.

(** Start a program and do not wait for it. *)
Definition spawn_detached (l : launch) : M unit :=
  fun w =>
    match exec env w l with
    | Some _ =>
        (Returns tt, {| fs := fs w; procs := (procs w ++ [l])%list; console := console w |})
    | None => (Raises (OSError FileNotFoundError), w)
    end.

(** [subprocess.run(args)] and [subprocess.run(args, cwd=..., check=True)]:
    with [check], an exit status other than 0 raises. *)
Definition subprocess_run (args : list string) (dir : option string) (check : bool)
    : M completed :=
  c ← spawn_wait {| argv := args; stdin := None; cwd := dir; wait := Blocking |};
  if check && negb (returncode c =? 0)%Z then raise (CalledProcessError (returncode c) args)
  else mret c.

(** [subprocess.check_output(args, input=text, text=True)]: the standard
    output, or [CalledProcessError] on an exit status other than 0. *)
Definition check_output (args : list string) (input : string) : M string :=
  c ← spawn_wait {| argv := args; stdin := Some input; cwd := None; wait := Blocking |};
  if (returncode c =? 0)%Z then mret (stdout c)
  else raise (CalledProcessError (returncode c) args).

(** [subprocess.Popen(args, preexec_fn=os.setpgrp)] and
    [subprocess.Popen(args, start_new_session=True)] *)
Definition Popen_detached (args : list string) : M unit :=
  spawn_detached {| argv := args; stdin := None; cwd := None; wait := Detached |}.

(** [Popen(args, stdin=PIPE, stdout=PIPE, text=True).communicate(input=text)]:
    the first component of the pair, the standard output. The exit
    status is not looked at. *)
Definition Popen_communicate (args : list string) (input : string) : M string :=
  c ← spawn_wait {| argv := args; stdin := Some input; cwd := None; wait := Blocking |};
  mret (stdout c).

(** [os.path.expanduser(path)]: a leading [~] or [~user] is replaced by
    the home directory, without its trailing slashes; the path is left
    as it is when the home directory is not known. *)
Definition expanduser (path : string) : string :=
  if negb (Py.startswith path "~") then path
  else
    let i := match Py.find_from "/" 1 path with
             | Zneg _ => String.length path
             | z => Z.to_nat z
             end in
    let user := if (i =? 1)%nat then None else Some (String.substring 1 (i - 1) path) in
    match home_of env user with
    | None => path
    | Some userhome =>
        match Py.rstrip_char "/" userhome ++ Py.drop i path with
        | EmptyString => "/"
        | r => r
        end
    end.

End Subprocess.

End Run.

(** ** The program *)

Module Notes.

Import Run.

(** A value of a project template: a string or a list of values.
    Iterating a string yields its characters, as strings of length one. *)
#[local] Unset Elimination Schemes.
Inductive pyval : Type :=
  | PStr (s : string)
  | PList (l : list pyval).
#[local] Set Elimination Schemes.

Fixpoint chars (s : string) : list pyval :=
  match s with
  | EmptyString => []
  | String c s' => PStr (String c EmptyString) :: chars s'
  end.

Definition iterate (v : pyval) : list pyval :=
  match v with
  | PStr s => chars s
  | PList l => l
  end.

(** [project_templates]: from a template name to the folders of the
    template, in the order of the literal, each with its items. *)
Definition project_templates : gmap string (list (string * pyval)) :=
  list_to_map
    [ ("default",
        [ ("notes", PList [PStr "notes.md"]);
          ("notes/reference", PList []) ]);
      ("webapp",
        [ ("src", PList [PStr "src"; PStr "app.py"; PStr "static"; PStr "templates"]);
          ("data", PList [PStr "data"]);
          ("docs", PList [PStr "docs"]);
          ("README.md", PStr "") ]) ].

(** The body of the inner loop of [get_file_list]. *)
Definition keep_file (allowed_file_types : gset string) (root : string)
    (files : list string) (filename : string) : list string :=
  let ext := (Py.splitext filename).2 in
  if bool_decide (Py.lower ext ∈ allowed_file_types)
  then (files ++ [Py.path_join root filename])%list
  else files.

(** [get_file_list(directory, allowed_file_types)], on the file system
    it reads. *)
Definition get_file_list (fs : Fs.node) (directory : string)
    (allowed_file_types : gset string) : list string :=
  foldl (fun files '(root, _, filenames) =>
           foldl (keep_file allowed_file_types root) files filenames)
        [] (Fs.walk fs directory).

(** [get_first_level_folders(directory)] *)
Definition get_first_level_folders (home_projects : string) (fs : Fs.node)
    (directory : string) : outcome (list string) :=
  match Fs.scandir fs directory with
  | Raises e => Raises e
  | Returns entries =>
      Returns
        (foldl (fun folders entry =>
                  if Fs.de_is_dir entry
                     && negb (Py.startswith (Fs.de_name entry) ".")
                     && negb (String.eqb (Fs.de_path entry) home_projects)
                  then (folders ++ [Fs.de_name entry])%list
                  else folders)
               [] entries)
  end.

(** [get_folders_and_files(directory)]: the entries are the file names
    of each triple of the walk. *)
Definition get_folders_and_files (fs : Fs.node) (directory : string)
    : list string * list string :=
  foldl (fun '(folders, files) '(root, _, entries) =>
           foldl (fun '(folders, files) entry =>
                    let full_path := Py.path_join root entry in
                    if Fs.isdir fs full_path && negb (Py.startswith full_path ".")
                    then ((folders ++ [full_path])%list, files)
                    else if Fs.isfile fs full_path
                    then (folders, (files ++ [full_path])%list)
                    else (folders, files))
                 (folders, files) entries)
        ([], []) (Fs.walk fs directory).

(** [get_files_in_folder(folder)] *)
Definition get_files_in_folder (fs : Fs.node) (folder : string)
    : outcome (list string) :=
  match Fs.scandir fs folder with
  | Raises e => Raises e
  | Returns entries =>
      Returns
        (foldl (fun files entry =>
                  if Fs.de_is_file entry then (files ++ [Fs.de_path entry])%list else files)
               [] entries)
  end.

(** Lift a read that can raise. *)
Definition reading_or_raise {A : Type} (f : Fs.node -> outcome A) : M A :=
  fun w =>
    match f (fs w) with
    | Returns a => (Returns a, w)
    | Raises e => (Raises e, w)
    end.

(** [next(it)] with no default: the first element, or [StopIteration]. *)
Definition next {A : Type} (l : list A) : M A :=
  match l with
  | x :: _ => mret x
  | [] => raise StopIteration
  end.

(** [not v] for a value that is [None] or a string. *)
Definition falsy (v : option string) : bool :=
  match v with
  | None => true
  | Some s => String.eqb s ""
  end.

Section Commands.

Context (env : environment).

(** [open_file_with_appropriate_viewer(file_path)] *)
Definition open_file_with_appropriate_viewer (file_path : string) : M unit :=
  let file_extension := (Py.splitext file_path).2 in
  if String.eqb file_extension ".md" then
    subprocess_run env ["nvim"; file_path] None false ;; mret tt
  else if String.eqb file_extension ".pdf" then
    Popen_detached env ["zathura"; file_path]
  else
    print env "[red]Error:[/red] Unsupported file type.".

(** [fzf_select(files)]. The function has no [return] on the path where
    a file is found: it falls off its end, and returns [None]. *)
Definition fzf_select (files : list string) : M (option string) :=
  let file_names :=
    map (fun file => Py.replace file (expanduser env "~/GoogleDrive/") "") files in
  let fzf_input := Py.join (String "010" EmptyString) file_names in
  let fzf_cmd := ["fzf"] in
  try_except
    (out ← check_output env fzf_cmd fzf_input;
     let selected_file_name := Py.strip out in
     selected_file ← next (filter (fun file => Py.endswith file selected_file_name) files);
     open_file_with_appropriate_viewer selected_file ;;
     mret None)
    (on_CalledProcessError (fun _ => mret None)).

(** [fzf_select_project(items)]. [communicate] raises no
    [CalledProcessError], so the handler is never entered. *)
Definition fzf_select_project (items : list string) : M (option string) :=
  let fzf_cmd := ["fzf"] in
  try_except
    (selected_item ← Popen_communicate env fzf_cmd (Py.join (String "010" EmptyString) items);
     let selected_item := Py.strip selected_item in
     mret (Some selected_item))
    (on_CalledProcessError (fun _ => mret None)).

(** The dispatch at the end of [open_file] (lines 50 to 61). *)
Definition open_file_dispatch (selected_file : string) : M unit :=
  let file_extension := (Py.splitext selected_file).2 in
  if String.eqb file_extension ".md" then
    subprocess_run env ["nvim"; selected_file] None false ;; mret tt
  else if String.eqb file_extension ".pdf" then
    Popen_detached env ["zathura"; selected_file]
  else if String.eqb file_extension ".epub" then
    subprocess_run env ["ebook-viewer"; selected_file] None false ;; mret tt
  else
    print env "[red]Error:[/red] Unsupported file type.".

(** The command [open_file(directory, pdf_only, uni)] *)
Definition open_file (directory : string) (pdf_only uni : bool) : M unit :=
  let directory := expanduser env directory in
  let allowed_file_types : gset string :=
    if pdf_only then {[ ".pdf" ]} else {[ ".pdf"; ".epub"; ".md" ]} in
  let directory := if uni then Py.path_join directory "Università" else directory in
  files ← reading (fun fs => get_file_list fs directory allowed_file_types);
  match files with
  | [] => print env "[red]Error:[/red] No files found."
  | _ =>
      selected_file ← fzf_select files;
      match selected_file with
      | Some selected_file =>
          if String.eqb selected_file ""
          then print env "[red]Error:[/red] No file selected."
          else open_file_dispatch selected_file
      | None => print env "[red]Error:[/red] No file selected."
      end
  end.

(** The last statement of [create] (lines 130 to 134): the note is opened
    with the editor of the environment, [vi] when [EDITOR] is not set. *)
Definition open_in_editor (note_path : string) : M unit :=
  try_except
    (subprocess_run env
       [match EDITOR env with Some e => e | None => "vi" end; note_path]
       None true ;;
     mret tt)
    (on_CalledProcessError
       (fun e => secho ("Error opening the note with the text editor: " ++ str_exn e))).

(** The command [create(note_name, directory)] *)
Definition create (note_name directory : string) : M unit :=
  let directory := expanduser env directory in
  let note_path := Py.path_join directory (note_name ++ ".md") in
  found ← reading (fun fs => Fs.exists_ fs note_path);
  if found : bool then
    secho ("Error: Note '" ++ note_name ++ "' already exists.")
  else
    changing (fun fs => Fs.write fs note_path ("# " ++ note_name)) ;;
    secho ("Success: Note '" ++ note_name ++ "' created in " ++ directory ++ ".") ;;
    open_in_editor note_path.

(** [git_init(project_path)] *)
Definition git_init (project_path : string) : M unit :=
  try_except
    (subprocess_run env ["git"; "init"] (Some project_path) true ;;
     print env "[green]Success:[/green] Git repository initialized.")
    (on_CalledProcessError
       (fun _ => print env "[red]Error:[/red] Failed to initialize Git repository.")).

(** The body of the inner loop of [create_project]: a string item is
    created as an empty file; [os.path.join] raises [TypeError] on any
    other item. *)
Definition create_item (folder_path : string) (item : pyval) : M unit :=
  match item with
  | PStr item => changing (fun fs => Fs.write fs (Py.path_join folder_path item) "")
  | PList _ => raise TypeError
  end.

(** The command [create_project(project_name, template, git, directory)] *)
Definition create_project (project_name template : string) (git : bool)
    (directory : string) : M unit :=
  let directory := expanduser env directory in
  let project_path := Py.path_join directory project_name in
  found ← reading (fun fs => Fs.exists_ fs project_path);
  if found : bool then
    print env ("[red]Error:[/red] Project '" ++ project_name ++ "' already exists.")
  else
    match project_templates !! template with
    | None => print env ("[red]Error:[/red] Template '" ++ template ++ "' not found.")
    | Some template_files =>
        changing (fun fs => Fs.makedirs fs project_path) ;;
        for_each template_files (fun '(folder, items) =>
          let folder_path := Py.path_join project_path folder in
          changing (fun fs => Fs.makedirs fs folder_path) ;;
          for_each (iterate items) (create_item folder_path)) ;;
        print env ("[green]Success:[/green] Project '" ++ project_name
                   ++ "' created with template '" ++ template ++ "'.") ;;
        if git then git_init project_path else mret tt
    end.

(** The command [search_project(directory)] *)
Definition search_project (directory : string) : M unit :=
  let directory := expanduser env directory in
  first_level_folders ←
    reading_or_raise (fun fs =>
      get_first_level_folders (expanduser env "~/GoogleDrive/Projects") fs directory);
  match first_level_folders with
  | [] => print env "[red]Error:[/red] No first-level folders found in the project directory."
  | _ =>
      selected_folder_name ← fzf_select_project first_level_folders;
      match selected_folder_name with
      | None => mret tt
      | Some selected_folder_name =>
          if String.eqb selected_folder_name "" then mret tt
          else
            let selected_folder := Py.path_join directory selected_folder_name in
            '(folders, files) ← reading (fun fs => get_folders_and_files fs selected_folder);
            match folders, files with
            | [], [] =>
                print env ("No files or subfolders found in the selected folder '"
                       ++ selected_folder ++ "'.")
            | _, _ =>
                (match folders with
                 | [] => mret tt
                 | _ => print env "Subfolders in the selected folder:"
                 end) ;;
                (match files with
                 | [] => mret tt
                 | _ => print env "Files in the selected folder:"
                 end) ;;
                selected_item ← fzf_select (folders ++ files)%list;
                if falsy selected_item then print env "[red]Error:[/red] No item selected."
                else
                  let selected_item := default "" selected_item in
                  is_folder ← reading (fun fs => Fs.isdir fs selected_item);
                  if is_folder : bool then
                    files_in_folder ←
                      reading_or_raise (fun fs => get_files_in_folder fs selected_item);
                    match files_in_folder with
                    | [] => print env "[red]Error:[/red] No files found in the selected folder."
                    | _ =>
                        selected_file ← fzf_select files_in_folder;
                        if falsy selected_file
                        then print env "[red]Error:[/red] No file selected in the folder."
                        else open_file_with_appropriate_viewer (default "" selected_file)
                    end
                  else open_file_with_appropriate_viewer selected_item
            end
      end
  end.

End Commands.

End Notes.

(** ** Worlds after a step *)

Module Trace.

Import Run.

(** The world with one more line on the console. *)
Definition printed (text : string) (w : world) : world :=
  {| fs := fs w; procs := procs w; console := (console w ++ [text])%list |}.

(** The world after a program that was waited for. *)
Definition waited (l : launch) (c : completed) (w : world) : world :=
  {| fs := fs_after c; procs := (procs w ++ [l])%list; console := console w |}.

(** The world after a program was started and left alone. *)
Definition started (l : launch) (w : world) : world :=
  {| fs := fs w; procs := (procs w ++ [l])%list; console := console w |}.

(** The world with the file system replaced. *)
Definition with_fs (fs' : Fs.node) (w : world) : world :=
  {| fs := fs'; procs := procs w; console := console w |}.

(** The launch of the selector on a given input. *)
Definition selector (input : string) : launch :=
  {| argv := ["fzf"]; stdin := Some input; cwd := None; wait := Blocking |}.

(** The launch of a viewer that is waited for. *)
Definition viewer (program file : string) : launch :=
  {| argv := [program; file]; stdin := None; cwd := None; wait := Blocking |}.

(** The launch of a viewer that is not waited for. *)
Definition detached_viewer (program file : string) : launch :=
  {| argv := [program; file]; stdin := None; cwd := None; wait := Detached |}.

Definition unsupported : string := "[red]Error:[/red] Unsupported file type.".

End Trace.

(** ** A scenario to run the program in *)

Module Scenario.

Import Run.

(** A home directory with a note, two documents and a project. *)
Definition drive : Fs.node :=
  Fs.Dir
    [ ("home", Fs.Dir
        [ ("u", Fs.Dir
            [ ("GoogleDrive", Fs.Dir
                [ ("a.md", Fs.File "# a");
                  ("b.PDF", Fs.File "");
                  ("sub", Fs.Dir [ ("book.epub", Fs.File ""); ("d.txt", Fs.File "") ]);
                  ("empty", Fs.Dir []);
                  ("Projects", Fs.Dir [ ("baz", Fs.Dir []) ]) ]) ]) ]) ].

Definition start : world := {| fs := drive; procs := []; console := [] |}.

(** A spool directory: a FIFO whose name ends in [.pdf], a folder with a
    scanned document and a socket. *)
Definition spool : Fs.node :=
  Fs.Dir
    [ ("pipe.pdf", Fs.Other);
      ("in", Fs.Dir [ ("scan.PDF", Fs.File ""); ("ctl", Fs.Other) ]) ].

(** The normal form of a style definition, in the scenarios: the
    definition stripped and in lower case, which is what
    [Style.normalize] gives for the name of a colour and for a word that
    is no style. The scenarios have no handler tag, and the parameters
    of one are taken not to parse. *)
Definition word_style (style : string) : string := Py.lower (Py.strip style).

(** An environment where the home directory is [/home/u], [EDITOR] is
    not set, every program can be started and leaves the file system as
    it is; the selector exits with [status] after writing [output], any
    other program exits with 0 and writes nothing. *)
Definition scripted (status : Z) (output : string) : environment :=
  {| home_of := fun user => match user with None => Some "/home/u" | Some _ => None end;
     EDITOR := None;
     exec := fun w l =>
       match argv l with
       | ["fzf"] => Some {| returncode := status; stdout := output; fs_after := fs w |}
       | _ => Some {| returncode := 0; stdout := ""; fs_after := fs w |}
       end;
     style_normal_form := word_style;
     meta_parses := fun _ => false |}.

Definition newline : string := String "010" EmptyString.

End Scenario.

(** ** The vocabulary of the specification *)

Module Spec.

Import Run Notes.

(** The extension the scanner and the dispatcher look at. *)
Definition extension (path : string) : string := (Py.splitext path).2.



(** [entry_under top n p name e]: in the directory [n], reached under
    the path [top], there is at any depth an entry [e] called [name],
    and [p] is its path. *)
Inductive entry_under : string → Fs.node → string → string → Fs.node → Prop :=
  | entry_here (top : string) (es : list (string * Fs.node)) (name : string) (e : Fs.node) :
      (name, e) ∈ es →
      entry_under top (Fs.Dir es) (Py.path_join top name) name e
  | entry_below (top : string) (es : list (string * Fs.node)) (d : string)
      (sub : Fs.node) (p name : string) (e : Fs.node) :
      (d, sub) ∈ es →
      entry_under (Py.path_join top d) sub p name e →
      entry_under top (Fs.Dir es) p name e.

(** The entries under the directory a path string names that are not
    directories: regular files, and whatever else a directory lists. *)
Definition not_directory_under (fs : Fs.node) (directory p name : string) : Prop :=
  ∃ n e, Fs.lookup fs directory = Some n
         ∧ entry_under directory n p name e
         ∧ Fs.is_dir (Some e) = false.



(** The scan as the code does it: every entry that is not a directory
    is looked at, regular file or not; its extension is put in lower
    case, the members of the set are taken as they are. *)
Definition scan_lower_case (fs : Fs.node) (directory : string)
    (allowed : gset string) (p : string) : Prop :=
  ∃ name, not_directory_under fs directory p name
          ∧ Py.lower (extension name) ∈ allowed.



(** The text [fzf_select] sends to the selector. *)
Definition fzf_input (env : environment) (files : list string) : string :=
  Py.join (String "010" EmptyString)
    (map (fun file => Py.replace file (expanduser env "~/GoogleDrive/") "") files).

(** The first candidate that ends with the label. *)
Definition first_match (files : list string) (label : string) : option string :=
  head (filter (fun file => Py.endswith file label) files).

(** The directory [open_file] scans and the extensions it allows. *)
Definition scan_root (env : environment) (directory : string) (uni : bool) : string :=
  if uni then Py.path_join (expanduser env directory) "Università"
  else expanduser env directory.

Definition scan_types (pdf_only : bool) : gset string :=
  if pdf_only then {[ ".pdf" ]} else {[ ".pdf"; ".epub"; ".md" ]}.

(** The path of the note [create] makes, and of the project
    [create_project] makes. *)
Definition note_path (env : environment) (note_name directory : string) : string :=
  Py.path_join (expanduser env directory) (note_name ++ ".md").

Definition project_path (env : environment) (project_name directory : string) : string :=
  Py.path_join (expanduser env directory) project_name.

(** The lines the commands print. *)
Definition no_files_found : string := "[red]Error:[/red] No files found.".

Definition no_file_selected : string := "[red]Error:[/red] No file selected.".

Definition no_first_level_folders : string :=
  "[red]Error:[/red] No first-level folders found in the project directory.".

Definition nothing_in_folder (selected_folder : string) : string :=
  "No files or subfolders found in the selected folder '" ++ selected_folder ++ "'.".


Definition note_created (env : environment) (note_name directory : string) : string :=
  "Success: Note '" ++ note_name ++ "' created in " ++ expanduser env directory ++ ".".

Definition project_exists (project_name : string) : string :=
  "[red]Error:[/red] Project '" ++ project_name ++ "' already exists.".


(** The claims as the specification words them, to be tested on the code. *)

(** On the empty list, [fzf_select] yields no selection and starts nothing. *)
Definition select_empty_is_silent (env : environment) (w : world) : Prop :=
  fzf_select env [] w = (Returns None, w).





End Spec.

(** ** Further vocabulary: well-formed trees, labels, outcomes *)

Module Shape.

Import Run Notes.

(** A name a directory can list: not empty, no slash, neither [.] nor
    [..]. *)
Definition name_ok (name : string) : bool :=
  Py.plain name && negb (String.eqb name "") && negb (String.eqb name ".")
  && negb (String.eqb name "..").

(** A tree as a file system holds it: in every directory the names are
    such names and no two entries share one. *)
#[local] Unset Elimination Schemes.
Inductive well_formed : Fs.node → Prop :=
  | wf_file (content : string) : well_formed (Fs.File content)
  | wf_other : well_formed Fs.Other
  | wf_dir (es : list (string * Fs.node)) :
      NoDup es.*1 →
      Forall (λ e, name_ok e.1 = true) es →
      Forall (λ e, well_formed e.2) es →
      well_formed (Fs.Dir es).
#[local] Set Elimination Schemes.

(** A path that goes through something that is not a directory: some
    of its components lead to an entry that is there and is not a
    directory, and a component follows. *)
Definition through_non_directory (fs : Fs.node) (path : string) : Prop :=
  ∃ cs1 c cs2 r n,
    path ≠ ""
    ∧ Py.split_slash path = (cs1 ++ c :: cs2)%list
    ∧ Fs.resolve fs [] cs1 = Some r
    ∧ Fs.get fs r = Some n
    ∧ Fs.is_dir (Some n) = false.

(** The label [fzf_select] shows for a candidate. *)
Definition label (env : environment) (file : string) : string :=
  Py.replace file (expanduser env "~/GoogleDrive/") "".

(** A character [str.strip] never removes: one of the ASCII range that
    is not white space. *)
Definition kept (c : ascii) : bool :=
  (nat_of_ascii c <? 128)%nat && negb (Py.isspace c).

Fixpoint last_char (s : string) : option ascii :=
  match s with
  | EmptyString => None
  | String c EmptyString => Some c
  | String _ s' => last_char s'
  end.

(** A label [str.strip] gives back as it is: it is empty, or its first
    and its last character are such characters. *)
Definition trimmed (s : string) : bool :=
  match s with
  | EmptyString => true
  | String c _ => kept c && match last_char s with Some d => kept d | None => false end
  end.

(** What [fzf_select] does with the candidate it found: the viewer runs,
    and the function returns [None] unless the viewer raised something
    other than [CalledProcessError]. *)
Definition opened (env : environment) (selected_file : string) (w : world)
    : outcome (option string) * world :=
  match open_file_with_appropriate_viewer env selected_file w with
  | (Returns _, w') => (Returns None, w')
  | (Raises (CalledProcessError rc cmd), w') => (Returns None, w')
  | (Raises e, w') => (Raises e, w')
  end.

(** The two headers [search_project] prints before the second selection. *)
Definition headers (folders files : list string) (w : world) : world :=
  let w1 := match folders with
            | [] => w
            | _ => Trace.printed "Subfolders in the selected folder:" w
            end in
  match files with
  | [] => w1
  | _ => Trace.printed "Files in the selected folder:" w1
  end.

Definition no_item_selected : string := "[red]Error:[/red] No item selected.".

(** The launch of the editor on a note, and of [git init] in a project. *)
Definition editor (env : environment) (note_path : string) : launch :=
  {| argv := [match EDITOR env with Some e => e | None => "vi" end; note_path];
     stdin := None; cwd := None; wait := Blocking |}.

Definition git (project_path : string) : launch :=
  {| argv := ["git"; "init"]; stdin := None; cwd := Some project_path; wait := Blocking |}.

Definition editor_failed (env : environment) (note_path : string) (rc : Z) : string :=
  "Error opening the note with the text editor: "
  ++ str_exn (CalledProcessError rc (argv (editor env note_path))).



Definition project_created (project_name template : string) : string :=
  "[green]Success:[/green] Project '" ++ project_name
  ++ "' created with template '" ++ template ++ "'.".

(** The tree the default template makes. *)
Definition default_tree : Fs.node :=
  Fs.Dir [("notes", Fs.Dir [("notes.md", Fs.File ""); ("reference", Fs.Dir [])])].


(** An environment as [Scenario.scripted] where [EDITOR] is [nano] and
    every program exits with [status], and one where no program can be
    started. *)
Definition failing_editor (status : Z) : environment :=
  {| home_of := fun user => match user with None => Some "/home/u" | Some _ => None end;
     EDITOR := Some "nano";
     exec := fun w l =>
       Some {| returncode := status; stdout := ""; fs_after := fs w |};
     style_normal_form := Scenario.word_style;
     meta_parses := fun _ => false |}.

Definition nothing_starts : environment :=
  {| home_of := fun user => match user with None => Some "/home/u" | Some _ => None end;
     EDITOR := None;
     exec := fun _ _ => None;
     style_normal_form := Scenario.word_style;
     meta_parses := fun _ => false |}.

(** An environment as [Scenario.scripted] where the selector writes
    [first] when it is the first program started and [later] afterwards. *)
Definition two_choices (first later : string) : environment :=
  {| home_of := fun user => match user with None => Some "/home/u" | Some _ => None end;
     EDITOR := None;
     exec := fun w l =>
       match argv l with
       | ["fzf"] =>
           Some {| returncode := 0;
                   stdout := match procs w with [] => first | _ => later end;
                   fs_after := fs w |}
       | _ => Some {| returncode := 0; stdout := ""; fs_after := fs w |}
       end;
     style_normal_form := Scenario.word_style;
     meta_parses := fun _ => false |}.

End Shape.

(** ** The embedding on examples *)

Module Checks.

Import Run Notes Trace.

(** The examples of the documentation of [os.path.splitext]. *)
Example splitext_plain : Py.splitext "bar" = ("bar", "").
Proof. reflexivity. Qed.

Example splitext_last_dot : Py.splitext "foo.bar.exe" = ("foo.bar", ".exe").
Proof. reflexivity. Qed.

Example splitext_leading_dot : Py.splitext ".cshrc" = (".cshrc", "").
Proof. reflexivity. Qed.

Example splitext_leading_dots : Py.splitext "/foo/....jpg" = ("/foo/....jpg", "").
Proof. reflexivity. Qed.

Example splitext_dot_in_directory : Py.splitext "/home/u.v/notes" = ("/home/u.v/notes", "").
Proof. reflexivity. Qed.

Example join_relative : Py.path_join "/home/u" "a.md" = "/home/u/a.md".
Proof. reflexivity. Qed.

Example join_after_slash : Py.path_join "/home/u/" "a.md" = "/home/u/a.md".
Proof. reflexivity. Qed.

Example join_absolute : Py.path_join "/home/u" "/etc/a.md" = "/etc/a.md".
Proof. reflexivity. Qed.

Example replace_every_occurrence : Py.replace "/h/G/a/h/G/b" "/h/G/" "" = "ab".
Proof. reflexivity. Qed.

Example replace_empty_old : Py.replace "abc" "" "-" = "-a-b-c-".
Proof. reflexivity. Qed.

Example strip_line : Py.strip ("  sub/a b.md " ++ Scenario.newline) = "sub/a b.md".
Proof. reflexivity. Qed.

Example endswith_empty : Py.endswith "/home/u/a.md" "" = true.
Proof. reflexivity. Qed.

Example expanduser_home :
  expanduser (Scenario.scripted 0 "") "~/GoogleDrive/" = "/home/u/GoogleDrive/".
Proof. reflexivity. Qed.

Example expanduser_unknown_user :
  expanduser (Scenario.scripted 0 "") "~bob/notes" = "~bob/notes".
Proof. reflexivity. Qed.

(** Paths are resolved as the system does. *)
Example lookup_dots :
  Fs.lookup Scenario.drive "/home/u/../u/./GoogleDrive//a.md" = Some (Fs.File "# a").
Proof. reflexivity. Qed.

Example lookup_through_file : Fs.exists_ Scenario.drive "/home/u/GoogleDrive/a.md/" = false.
Proof. reflexivity. Qed.

(** A path through a regular file names nothing, and the error says
    so; a path on which a name is missing gives the other error. *)
Example errno_through_file :
  Fs.errno Scenario.drive "/home/u/GoogleDrive/a.md/x" = NotADirectoryError.
Proof. reflexivity. Qed.

Example errno_missing : Fs.errno Scenario.drive "/home/u/nowhere/x" = FileNotFoundError.
Proof. reflexivity. Qed.

Example scandir_fifo :
  Fs.scandir Scenario.spool "/pipe.pdf" = Raises (OSError NotADirectoryError).
Proof. reflexivity. Qed.

(** The walk lists a FIFO and a socket among the file names. *)
Example walk_spool :
  Fs.walk Scenario.spool "/"
  = [ ("/", ["in"], ["pipe.pdf"]); ("/in", [], ["scan.PDF"; "ctl"]) ].
Proof. reflexivity. Qed.

(** Markup: a closing tag needs an open tag of its name, or any open tag
    when it has no name; a backslash before a tag makes it plain text;
    an opening bracket inside what looked like a tag starts over. *)
Example markup_error_line :
  Markup.accepts Scenario.word_style (λ _, false)
    "[red]Error:[/red] Unsupported file type." = true.
Proof. reflexivity. Qed.

Example markup_unmatched :
  Markup.accepts Scenario.word_style (λ _, false)
    "[red]Error:[/red] Template '[/foo]' not found." = false.
Proof. reflexivity. Qed.

Example markup_nothing_to_close :
  Markup.accepts Scenario.word_style (λ _, false) "[/]" = false.
Proof. reflexivity. Qed.

Example markup_closes_nearest :
  Markup.accepts Scenario.word_style (λ _, false) "[bold][red]x[/bold]y[/]" = true.
Proof. reflexivity. Qed.

Example markup_escaped :
  Markup.accepts Scenario.word_style (λ _, false)
    (String Markup.backslash "[/foo]") = true.
Proof. reflexivity. Qed.

Example markup_two_backslashes :
  Markup.accepts Scenario.word_style (λ _, false)
    (String Markup.backslash (String Markup.backslash "[/foo]")) = false.
Proof. reflexivity. Qed.

Example markup_starts_over :
  Markup.accepts Scenario.word_style (λ _, false) "[/a[b]" = true.
Proof. reflexivity. Qed.

Example markup_capital_is_no_tag :
  Markup.accepts Scenario.word_style (λ _, false) "[Done] [/]" = false
  ∧ Markup.accepts Scenario.word_style (λ _, false) "[done] [/]" = true.
Proof. split; reflexivity. Qed.

(** The walk goes top down, the files of a directory before its
    sub-directories. *)
Example scan_order :
  get_file_list Scenario.drive "/home/u/GoogleDrive" {[ ".pdf"; ".epub"; ".md" ]}
  = [ "/home/u/GoogleDrive/a.md"; "/home/u/GoogleDrive/b.PDF";
      "/home/u/GoogleDrive/sub/book.epub" ].
Proof. by vm_compute. Qed.

(** The default template: the folder [notes] with the empty file
    [notes.md] and the empty folder [reference]. *)
Example create_project_default :
  create_project (Scenario.scripted 0 "") "bar" "default" false "~/GoogleDrive/Projects"
    Scenario.start
  = (Returns tt,
     {| fs := Fs.put ["home"; "u"; "GoogleDrive"; "Projects"; "bar"]
                (Fs.Dir [("notes", Fs.Dir [("notes.md", Fs.File ""); ("reference", Fs.Dir [])])])
                Scenario.drive;
        procs := [];
        console := ["[green]Success:[/green] Project 'bar' created with template 'default'."] |}).
Proof. by vm_compute. Qed.

(** A selection in [open_file]: the note is opened by [fzf_select], and
    the command then prints that no file was selected. *)
Example open_file_selection :
  open_file (Scenario.scripted 0 "a.md") "~/GoogleDrive" false false Scenario.start
  = (Returns tt,
     {| fs := Scenario.drive;
        procs := [ selector ("a.md" ++ Scenario.newline ++ "b.PDF" ++ Scenario.newline
                             ++ "sub/book.epub");
                   viewer "nvim" "/home/u/GoogleDrive/a.md" ];
        console := ["[red]Error:[/red] No file selected."] |}).
Proof. by vm_compute. Qed.

End Checks.

(** ** What is printed *)

Module Printing.

Import Run Trace Markup.

Section Reading.

Context (normalize : string → string) (parses : string → bool).

(** Reading a text in two parts. *)
Lemma run_app (a b : string) (st : mode * list tag) :
  run normalize parses st (a ++ b)
  = match run normalize parses st a with
    | Some st' => run normalize parses st' b
    | None => None
    end.
Proof.
  revert st. induction a as [|c a IH]; intros st; [reflexivity|].
  change (String c a ++ b) with (String c (a ++ b)). simpl.
  destruct (step normalize parses st c); [apply IH|reflexivity].
Qed.

(** A closing tag with the name of the tag on top closes it. *)
Lemma close_top (name : string) (stack : list tag) :
  String.eqb (Py.strip (Py.drop 1 name)) "" = false →
  close normalize parses name ((normalize (Py.strip (Py.drop 1 name)), None) :: stack)
  = Some stack.
Proof.
  intros H. unfold close. rewrite H. cbn [pop_style fst]. rewrite String.eqb_refl.
  unfold closes. cbn [fst snd]. by destruct (Py.startswith _ "@").
Qed.

(** The two prefixes of the messages of the program are read through,
    whatever the normal form of [red] and [green] is. *)
Lemma run_error (stack : list tag) :
  run normalize parses (Text 0, stack) "[red]Error:[/red]" = Some (Text 0, stack).
Proof.
  change "[red]Error:[/red]" with ("[red]Error:" ++ "[/red]").
  rewrite run_app.
  change (run normalize parses (Text 0, stack) "[red]Error:")
    with (Some (Text 0, (normalize "red", None) :: stack)).
  cbv beta iota.
  change (run normalize parses (Text 0, (normalize "red", None) :: stack) "[/red]")
    with (match
            match close normalize parses "/red"
                    ((normalize (Py.strip (Py.drop 1 "/red")), None) :: stack) with
            | Some stack' => Some (Text 0, stack')
            | None => None
            end
          with
          | Some st => Some st
          | None => None
          end).
  by rewrite close_top.
Qed.

Lemma run_success (stack : list tag) :
  run normalize parses (Text 0, stack) "[green]Success:[/green]" = Some (Text 0, stack).
Proof.
  change "[green]Success:[/green]" with ("[green]Success:" ++ "[/green]").
  rewrite run_app.
  change (run normalize parses (Text 0, stack) "[green]Success:")
    with (Some (Text 0, (normalize "green", None) :: stack)).
  cbv beta iota.
  change (run normalize parses (Text 0, (normalize "green", None) :: stack) "[/green]")
    with (match
            match close normalize parses "/green"
                    ((normalize (Py.strip (Py.drop 1 "/green")), None) :: stack) with
            | Some stack' => Some (Text 0, stack')
            | None => None
            end
          with
          | Some st => Some st
          | None => None
          end).
  by rewrite close_top.
Qed.

(** The name of a tag starts with a slash only if the tag does. *)
Lemma partition_eq_head (a : ascii) (t : string) :
  Ascii.eqb a "/" = false → Py.startswith (partition_eq (String a t)).1 "/" = false.
Proof.
  intros Ha. cbn [partition_eq]. destruct (Ascii.eqb a "="); [reflexivity|].
  destruct (partition_eq t) as [name parameters]. cbn [fst].
  unfold Py.startswith. cbn [String.prefix].
  destruct (ascii_dec "/" a) as [<-|_]; [done|reflexivity].
Qed.

(** A character other than a slash raises nothing where no closing tag
    is being read, and starts none. *)
Lemma step_plain (m : mode) (stack : list tag) (c : ascii) :
  safe m = true → Ascii.eqb c "/" = false →
  ∃ m' stack', step normalize parses (m, stack) c = Some (m', stack') ∧ safe m' = true.
Proof.
  intros Hsafe Hc. destruct m as [b|e|e t b]; cbn [step].
  - destruct (Ascii.eqb c backslash); [by eexists _, _|].
    destruct (Ascii.eqb c "["); by eexists _, _.
  - destruct (tag_start c).
    + eexists _, _. split; [reflexivity|]. cbn [safe]. by rewrite Hc.
    + destruct (Ascii.eqb c "["); [by eexists _, _|].
      destruct (Ascii.eqb c backslash); by eexists _, _.
  - destruct t as [|a t]; [done|]. cbn [safe] in Hsafe. apply negb_true_iff in Hsafe.
    destruct (Ascii.eqb c "]").
    + unfold apply_tag. destruct (Nat.odd e); [by eexists _, _|].
      pose proof (partition_eq_head a t Hsafe) as Hhead.
      destruct (partition_eq (String a t)) as [name parameters]. cbn [fst] in Hhead.
      rewrite Hhead. by eexists _, _.
    + destruct (Ascii.eqb c "["); [by eexists _, _|].
      eexists _, _. split; [reflexivity|].
      change (String a t ++ String c "") with (String a (t ++ String c "")).
      cbn [safe]. by rewrite Hsafe.
Qed.

(** A text with no slash has no closing tag: it is read to its end. *)
Lemma run_plain (s : string) (m : mode) (stack : list tag) :
  Py.plain s = true → safe m = true →
  ∃ st, run normalize parses (m, stack) s = Some st.
Proof.
  revert m stack. induction s as [|c s IH]; intros m stack Hplain Hsafe; [by eexists|].
  cbn [Py.plain] in Hplain. apply andb_true_iff in Hplain as [Hc Hs].
  apply negb_true_iff in Hc.
  destruct (step_plain m stack c Hsafe Hc) as (m' & stack' & Hstep & Hsafe').
  cbn [run]. rewrite Hstep. by apply IH.
Qed.

Lemma accepts_plain (text : string) :
  Py.plain text = true → accepts normalize parses text = true.
Proof.
  intros Hplain. unfold accepts.
  by destruct (run_plain text (Text 0) [] Hplain) as [st ->].
Qed.

Lemma accepts_error (rest : string) :
  Py.plain rest = true → accepts normalize parses ("[red]Error:[/red]" ++ rest) = true.
Proof.
  intros Hplain. unfold accepts. rewrite run_app, run_error.
  by destruct (run_plain rest (Text 0) [] Hplain) as [st ->].
Qed.

Lemma accepts_success (rest : string) :
  Py.plain rest = true →
  accepts normalize parses ("[green]Success:[/green]" ++ rest) = true.
Proof.
  intros Hplain. unfold accepts. rewrite run_app, run_success.
  by destruct (run_plain rest (Text 0) [] Hplain) as [st ->].
Qed.

End Reading.

Section Printing.

Context (env : environment).



(** A line with no slash in it is printed. *)
Lemma print_plain (text : string) (w : world) :
  Py.plain text = true → print env text w = (Returns tt, printed text w).
Proof. intros Hplain. unfold print, printed. by rewrite accepts_plain. Qed.

(** So is an error or a success with no slash after the coloured word. *)
Lemma print_error (text rest : string) (w : world) :
  text = "[red]Error:[/red]" ++ rest → Py.plain rest = true →
  print env text w = (Returns tt, printed text w).
Proof. intros -> Hplain. unfold print, printed. by rewrite accepts_error. Qed.

Lemma print_success (text rest : string) (w : world) :
  text = "[green]Success:[/green]" ++ rest → Py.plain rest = true →
  print env text w = (Returns tt, printed text w).
Proof. intros -> Hplain. unfold print, printed. by rewrite accepts_success. Qed.

End Printing.

(** The lines the program prints as they stand in its text. *)
Ltac print_line :=
  match goal with
  | |- context [print ?env ?text ?w] =>
      first
        [ rewrite (print_plain env text w) by reflexivity
        | rewrite (print_error env text (Py.drop 17 text) w) by reflexivity
        | rewrite (print_success env text (Py.drop 23 text) w) by reflexivity ]
  end.

End Printing.

(** ** The dispatcher *)

Module Dispatch.

Import Run Notes Trace Spec.

Section Dispatch.

Context (env : environment).

Lemma eqb_ne (a b : string) : a ≠ b → String.eqb a b = false.
Proof. intros H. apply String.eqb_neq. exact H. Qed.

(** The last branch of [open_file_with_appropriate_viewer]. *)
Lemma viewer_unsupported (path : string) (w : world) :
  extension path ≠ ".md" → extension path ≠ ".pdf" →
  open_file_with_appropriate_viewer env path w = (Returns tt, printed unsupported w).
Proof.
  unfold extension, open_file_with_appropriate_viewer. intros Hmd Hpdf.
  rewrite (eqb_ne _ _ Hmd), (eqb_ne _ _ Hpdf). by Printing.print_line.
Qed.

(** The last branch of the dispatch of [open_file]. *)
Lemma dispatch_unsupported (path : string) (w : world) :
  extension path ≠ ".md" → extension path ≠ ".pdf" → extension path ≠ ".epub" →
  open_file_dispatch env path w = (Returns tt, printed unsupported w).
Proof.
  unfold extension, open_file_dispatch. intros Hmd Hpdf Hepub.
  rewrite (eqb_ne _ _ Hmd), (eqb_ne _ _ Hpdf), (eqb_ne _ _ Hepub).
  by Printing.print_line.
Qed.

(** The dispatch of [open_file] does have a branch for [.epub]: the
    e-book viewer is started and waited for. *)
Lemma dispatch_epub (path : string) (w : world) (c : completed) :
  extension path = ".epub" →
  exec env w (viewer "ebook-viewer" path) = Some c →
  open_file_dispatch env path w = (Returns tt, waited (viewer "ebook-viewer" path) c w).
Proof.
  unfold extension, open_file_dispatch. intros Hext Hexec. rewrite Hext. simpl.
  unfold subprocess_run, spawn_wait, mbind, M_bind, mret, M_ret. simpl.
  fold (viewer "ebook-viewer" path). rewrite Hexec. reflexivity.
Qed.

(** A [.pdf] path: both sites start [zathura] and do not wait for it. *)
Lemma dispatch_pdf (path : string) (w : world) (c : completed) :
  extension path = ".pdf" →
  exec env w (detached_viewer "zathura" path) = Some c →
  open_file_dispatch env path w = (Returns tt, started (detached_viewer "zathura" path) w)
  ∧ open_file_with_appropriate_viewer env path w
    = (Returns tt, started (detached_viewer "zathura" path) w).
Proof.
  unfold extension, open_file_dispatch, open_file_with_appropriate_viewer.
  intros Hext Hexec. rewrite Hext. simpl.
  unfold Popen_detached, spawn_detached. fold (detached_viewer "zathura" path).
  rewrite Hexec. split; reflexivity.
Qed.

(** [open_file_with_appropriate_viewer] has none: an [.epub] path gets
    the message of the last branch. *)
Lemma viewer_epub (path : string) (w : world) :
  extension path = ".epub" →
  open_file_with_appropriate_viewer env path w = (Returns tt, printed unsupported w).
Proof.
  intros Hext. apply viewer_unsupported; rewrite Hext; discriminate.
Qed.

End Dispatch.

(** C7. A path whose extension is none of [.md], [.pdf], [.epub] is not
    opened: at both dispatch sites the result is the message
    "Unsupported file type" on the console, and the world is otherwise
    the same, so no program was launched. *)
Theorem unsupported_extension_launches_nothing
    (env : environment) (path : string) (w : world) :
  extension path ≠ ".md" → extension path ≠ ".pdf" → extension path ≠ ".epub" →
  open_file_dispatch env path w = (Returns tt, printed unsupported w)
  ∧ open_file_with_appropriate_viewer env path w = (Returns tt, printed unsupported w)
  ∧ procs (printed unsupported w) = procs w.
Proof.
  intros Hmd Hpdf Hepub. split; [|split].
  - by apply dispatch_unsupported.
  - by apply viewer_unsupported.
  - reflexivity.
Qed.

Lemma unsupported_extension_witness :
  extension "/home/u/GoogleDrive/notes.xyz" = ".xyz"
  ∧ open_file_dispatch (Scenario.scripted 0 "") "/home/u/GoogleDrive/notes.xyz" Scenario.start
    = (Returns tt, printed unsupported Scenario.start)
  ∧ open_file_with_appropriate_viewer (Scenario.scripted 0 "")
      "/home/u/GoogleDrive/notes.xyz" Scenario.start
    = (Returns tt, printed unsupported Scenario.start)
  ∧ procs (printed unsupported Scenario.start) = procs Scenario.start.
Proof.
  split; [reflexivity|].
  apply (unsupported_extension_launches_nothing (Scenario.scripted 0 "")
           "/home/u/GoogleDrive/notes.xyz" Scenario.start);
    vm_compute; discriminate.
Defined.

(** C4. The book [/home/u/GoogleDrive/sub/book.epub] handed to
    [open_file_with_appropriate_viewer]: whatever the environment, no
    viewer is launched and the console gets "Unsupported file type",
    where the dispatch of [open_file] launches [ebook-viewer]. *)
Theorem epub_unsupported_by_viewer (env : environment) (w : world) :
  open_file_with_appropriate_viewer env "/home/u/GoogleDrive/sub/book.epub" w
  = (Returns tt, printed unsupported w)
  ∧ open_file_dispatch (Scenario.scripted 0 "") "/home/u/GoogleDrive/sub/book.epub"
      Scenario.start
    = (Returns tt,
       waited (viewer "ebook-viewer" "/home/u/GoogleDrive/sub/book.epub")
         {| returncode := 0; stdout := ""; fs_after := Scenario.drive |} Scenario.start).
Proof.
  split.
  - apply viewer_epub. reflexivity.
  - reflexivity.
Qed.

End Dispatch.

(** ** The selector adapters *)

Module Select.

Import Run Notes Trace Spec.

(** A test that fails on every element keeps none. *)
Lemma filter_none {A : Type} (f : A → bool) (l : list A) :
  (∀ x, x ∈ l → f x = false) → filter (λ x, f x) l = [].
Proof.
  induction l as [|a l IH]; intros Hnone; [reflexivity|].
  rewrite filter_cons. destruct (decide (f a)) as [Hfa|_].
  - rewrite (Hnone a) in Hfa by set_solver. contradiction.
  - apply IH. intros x Hx. apply Hnone. set_solver.
Qed.

Section Select.

Context (env : environment).

(** [fzf_select] starts with the selector, on the labels of the files. *)
Lemma fzf_select_cannot_start (files : list string) (w : world) :
  exec env w (selector (fzf_input env files)) = None →
  fzf_select env files w = (Raises (OSError FileNotFoundError), w).
Proof.
  intros Hexec.
  unfold fzf_select, try_except, check_output, spawn_wait, mbind, M_bind.
  fold (fzf_input env files). fold (selector (fzf_input env files)).
  rewrite Hexec. reflexivity.
Qed.

(** A selector that exits with a status other than 0 makes
    [check_output] raise, and the handler returns [None]. *)
Lemma fzf_select_cancelled (files : list string) (w : world) (c : completed) :
  exec env w (selector (fzf_input env files)) = Some c →
  returncode c ≠ 0%Z →
  fzf_select env files w = (Returns None, waited (selector (fzf_input env files)) c w).
Proof.
  intros Hexec Hrc.
  unfold fzf_select, try_except, check_output, spawn_wait, mbind, M_bind.
  fold (fzf_input env files). fold (selector (fzf_input env files)).
  rewrite Hexec. apply Z.eqb_neq in Hrc. rewrite Hrc. reflexivity.
Qed.

(** After a selector that exits with 0, the label is looked up. *)
Lemma fzf_select_chosen (files : list string) (w : world) (c : completed) :
  exec env w (selector (fzf_input env files)) = Some c →
  returncode c = 0%Z →
  fzf_select env files w =
    let w1 := waited (selector (fzf_input env files)) c w in
    match first_match files (Py.strip (stdout c)) with
    | None => (Raises StopIteration, w1)
    | Some selected_file =>
        match open_file_with_appropriate_viewer env selected_file w1 with
        | (Returns _, w2) => (Returns None, w2)
        | (Raises e, w2) =>
            match e with
            | CalledProcessError _ _ => (Returns None, w2)
            | _ => (Raises e, w2)
            end
        end
    end.
Proof.
  intros Hexec Hrc.
  unfold fzf_select, try_except, check_output, spawn_wait, mbind, M_bind, first_match.
  fold (fzf_input env files). fold (selector (fzf_input env files)).
  rewrite Hexec, Hrc. simpl.
  destruct (filter _ files) as [|selected_file rest]; simpl; [reflexivity|].
  unfold waited.
  destruct (open_file_with_appropriate_viewer env selected_file _) as [[u|e] w2];
    [reflexivity|].
  destruct e; reflexivity.
Qed.

(** Whatever the selector does, [fzf_select] returns no path. *)
Lemma fzf_select_returns_no_path (files : list string) (w w' : world)
    (v : option string) :
  fzf_select env files w = (Returns v, w') → v = None.
Proof.
  destruct (exec env w (selector (fzf_input env files))) as [c|] eqn:Hexec.
  - destruct (Z.eq_dec (returncode c) 0) as [Hrc|Hrc].
    + rewrite (fzf_select_chosen files w c Hexec Hrc). simpl.
      destruct (first_match _ _); [|discriminate].
      destruct (open_file_with_appropriate_viewer env s _) as [[u|e] w2].
      * congruence.
      * destruct e; congruence.
    + rewrite (fzf_select_cancelled files w c Hexec Hrc). congruence.
  - rewrite (fzf_select_cannot_start files w Hexec). discriminate.
Qed.

(** [fzf_select_project] returns what the selector wrote, stripped,
    whatever its exit status. *)
Lemma fzf_select_project_output (items : list string) (w : world) (c : completed) :
  exec env w (selector (Py.join (String "010" EmptyString) items)) = Some c →
  fzf_select_project env items w
  = (Returns (Some (Py.strip (stdout c))),
     waited (selector (Py.join (String "010" EmptyString) items)) c w).
Proof.
  intros Hexec.
  unfold fzf_select_project, try_except, Popen_communicate, spawn_wait, mbind, M_bind.
  fold (selector (Py.join (String "010" EmptyString) items)).
  rewrite Hexec. reflexivity.
Qed.

(** [open_file] gets no path from [fzf_select]: after the selection it
    prints "No file selected.", and its own dispatch is not reached. *)
Lemma open_file_after_selection (directory : string) (pdf_only uni : bool)
    (w : world) (file : string) (files : list string) :
  get_file_list (fs w) (scan_root env directory uni) (scan_types pdf_only) = file :: files →
  open_file env directory pdf_only uni w
  = match fzf_select env (file :: files) w with
    | (Returns _, w') => (Returns tt, printed no_file_selected w')
    | (Raises e, w') => (Raises e, w')
    end.
Proof.
  intros Hscan. unfold open_file, reading, mbind, M_bind.
  fold (scan_types pdf_only). fold (scan_root env directory uni).
  rewrite Hscan.
  destruct (fzf_select env (file :: files) w) as [[v|e] w'] eqn:Hsel; [|reflexivity].
  apply fzf_select_returns_no_path in Hsel as ->. by Printing.print_line.
Qed.

(** The two guards of [search_project] that are reached: no project
    folder, and a project folder with nothing in it. *)
Lemma search_project_no_folders (directory : string) (w : world) :
  get_first_level_folders (expanduser env "~/GoogleDrive/Projects") (fs w)
    (expanduser env directory) = Returns [] →
  search_project env directory w = (Returns tt, printed no_first_level_folders w).
Proof.
  intros Hfolders. unfold search_project, reading_or_raise, mbind, M_bind.
  rewrite Hfolders. by Printing.print_line.
Qed.

Lemma search_project_empty_folder (directory : string) (w w1 : world)
    (folder : string) (folders : list string) (name : string) :
  get_first_level_folders (expanduser env "~/GoogleDrive/Projects") (fs w)
    (expanduser env directory) = Returns (folder :: folders) →
  fzf_select_project env (folder :: folders) w = (Returns (Some name), w1) →
  name ≠ "" →
  get_folders_and_files (fs w1) (Py.path_join (expanduser env directory) name) = ([], []) →
  search_project env directory w
  = print env (nothing_in_folder (Py.path_join (expanduser env directory) name)) w1.
Proof.
  intros Hfolders Hsel Hname Hnothing.
  unfold search_project, reading_or_raise, reading, mbind, M_bind.
  rewrite Hfolders, Hsel. apply String.eqb_neq in Hname. rewrite Hname, Hnothing.
  reflexivity.
Qed.

End Select.

(** C10. When the selector exits with 0 and the label it wrote is not
    empty and ends no candidate, [fzf_select] raises [StopIteration]:
    [next] has no default and the handler names [CalledProcessError]
    only. The selector has run; nothing else has. *)
Theorem unmatched_label_raises_StopIteration
    (env : environment) (files : list string) (w : world) (c : completed) :
  exec env w (selector (fzf_input env files)) = Some c →
  returncode c = 0%Z →
  Py.strip (stdout c) ≠ "" →
  (∀ file, file ∈ files → Py.endswith file (Py.strip (stdout c)) = false) →
  fzf_select env files w
  = (Raises StopIteration, waited (selector (fzf_input env files)) c w).
Proof.
  intros Hexec Hrc _ Hnone.
  rewrite (fzf_select_chosen env files w c Hexec Hrc). simpl.
  unfold first_match. rewrite (filter_none _ files Hnone). reflexivity.
Qed.

Lemma unmatched_label_witness :
  fzf_select (Scenario.scripted 0 "c.md")
    ["/home/u/GoogleDrive/a.md"; "/home/u/GoogleDrive/b.PDF"] Scenario.start
  = (Raises StopIteration,
     waited (selector ("a.md" ++ Scenario.newline ++ "b.PDF"))
       {| returncode := 0; stdout := "c.md"; fs_after := Scenario.drive |}
       Scenario.start).
Proof.
  apply (unmatched_label_raises_StopIteration (Scenario.scripted 0 "c.md")
           ["/home/u/GoogleDrive/a.md"; "/home/u/GoogleDrive/b.PDF"] Scenario.start
           {| returncode := 0; stdout := "c.md"; fs_after := Scenario.drive |}).
  - reflexivity.
  - reflexivity.
  - vm_compute. discriminate.
  - intros file Hfile.
    apply elem_of_cons in Hfile as [->|Hfile]; [reflexivity|].
    apply elem_of_cons in Hfile as [->|Hfile]; [reflexivity|].
    inversion Hfile.
Defined.

(** C1. The candidates [/home/u/GoogleDrive/a.md] and
    [/home/u/GoogleDrive/sub/book.epub], a selector that exits with 0
    after writing the label [a.md]: the first candidate that ends with
    the label is the note, it is opened with [nvim], and [fzf_select]
    returns [None], not the path. *)
Theorem fzf_select_found_returns_None :
  let files := ["/home/u/GoogleDrive/a.md"; "/home/u/GoogleDrive/sub/book.epub"] in
  let env := Scenario.scripted 0 ("a.md" ++ Scenario.newline) in
  first_match files "a.md" = Some "/home/u/GoogleDrive/a.md"
  ∧ (fzf_select env files Scenario.start).1 = Returns None
  ∧ procs (fzf_select env files Scenario.start).2
    = [ selector ("a.md" ++ Scenario.newline ++ "sub/book.epub");
        viewer "nvim" "/home/u/GoogleDrive/a.md" ].
Proof. repeat split; reflexivity. Qed.

(** C8. The items [baz], a selector that exits with status 1 after
    writing the line [query]: [fzf_select_project] returns the string
    [query], where [fzf_select] in the same environment returns [None]. *)
Theorem fzf_select_project_ignores_status :
  let env := Scenario.scripted 1 ("query" ++ Scenario.newline) in
  (fzf_select_project env ["baz"] Scenario.start).1 = Returns (Some "query")
  ∧ (fzf_select env ["baz"] Scenario.start).1 = Returns None.
Proof. split; reflexivity. Qed.

(** C3, as stated, fails: on the empty list [fzf_select] starts the
    selector, here one that the user leaves with the escape key. *)
Lemma select_empty_starts_selector :
  ¬ select_empty_is_silent (Scenario.scripted 130 "") Scenario.start
  ∧ procs (fzf_select (Scenario.scripted 130 "") [] Scenario.start).2 = [selector ""].
Proof.
  split; [|reflexivity].
  unfold select_empty_is_silent. intros H.
  apply (f_equal (λ r, procs r.2)) in H. vm_compute in H. discriminate.
Qed.

(** C3, amended. [fzf_select] has no guard for the empty list: it
    starts the selector on the empty input, and returns [None] when the
    selector exits with a status other than 0. The guard is in the
    caller: when the scan finds nothing, [open_file] prints "No files
    found." and returns, and no program has been started. *)
Theorem empty_candidates_stop_at_the_caller (env : environment) :
  (∀ w c, exec env w (selector "") = Some c → returncode c ≠ 0%Z →
          fzf_select env [] w = (Returns None, waited (selector "") c w))
  ∧ (∀ directory pdf_only uni w,
       get_file_list (fs w) (scan_root env directory uni) (scan_types pdf_only) = [] →
       open_file env directory pdf_only uni w = (Returns tt, printed no_files_found w)).
Proof.
  split.
  - intros w c Hexec Hrc. apply (fzf_select_cancelled env [] w c Hexec Hrc).
  - intros directory pdf_only uni w Hscan.
    unfold open_file, reading, mbind, M_bind.
    fold (scan_types pdf_only). fold (scan_root env directory uni).
    rewrite Hscan. by Printing.print_line.
Qed.

Lemma empty_candidates_witness :
  fzf_select (Scenario.scripted 130 "") [] Scenario.start
  = (Returns None,
     waited (selector "") {| returncode := 130; stdout := ""; fs_after := Scenario.drive |}
       Scenario.start)
  ∧ open_file (Scenario.scripted 130 "") "~/GoogleDrive/empty" false false Scenario.start
    = (Returns tt, printed no_files_found Scenario.start).
Proof.
  destruct (empty_candidates_stop_at_the_caller (Scenario.scripted 130 "")) as [Hsel Hopen].
  split.
  - apply Hsel; [reflexivity|discriminate].
  - apply Hopen. vm_compute. reflexivity.
Defined.

End Select.

(** ** The scanner *)

Module Scan.

Import Run Notes Trace Spec.

(** Induction on a tree, with the property at hand for every entry of a
    directory. *)
Lemma node_ind (P : Fs.node → Prop) :
  (∀ content, P (Fs.File content)) →
  (∀ es, Forall (λ e, P e.2) es → P (Fs.Dir es)) →
  P Fs.Other →
  ∀ n, P n.
Proof.
  intros Hfile Hdir Hother.
  fix IH 1. intros [content|es|].
  - apply Hfile.
  - apply Hdir. induction es as [|[name ch] es IHes]; constructor.
    + apply IH.
    + apply IHes.
  - apply Hother.
Qed.

(** The walk of a directory: its own triple, then the walks of the
    entries. *)
Lemma walk_node_dir (top : string) (es : list (string * Fs.node)) :
  Fs.walk_node top (Fs.Dir es)
  = (top, Fs.dirnames es, Fs.filenames es)
    :: flat_map (λ e, Fs.walk_node (Py.path_join top e.1) e.2) es.
Proof.
  simpl. f_equal.
  induction es as [|[name ch] es IH]; [reflexivity|].
  simpl. f_equal. apply IH.
Qed.

(** The file names of a directory are the names of its entries that are
    not directories. *)
Lemma elem_of_filenames (name : string) (es : list (string * Fs.node)) :
  name ∈ Fs.filenames es ↔ ∃ e, (name, e) ∈ es ∧ Fs.is_dir (Some e) = false.
Proof.
  unfold Fs.filenames. rewrite list_elem_of_fmap. split.
  - intros [[k n] [-> Hin]]. apply list_elem_of_filter in Hin as [Hfile Hin].
    exists n. split; [exact Hin|]. cbn [snd] in Hfile. by destruct (Fs.is_dir (Some n)).
  - intros (e & Hin & He). exists (name, e). split; [reflexivity|].
    apply list_elem_of_filter. split; [cbn [snd]; by rewrite He|exact Hin].
Qed.

(** A file name found by the walk is an entry under the directory that
    is not a directory. *)
Lemma walk_node_sound (n : Fs.node) :
  ∀ top root ds fns name,
    (root, ds, fns) ∈ Fs.walk_node top n → name ∈ fns →
    ∃ e, entry_under top n (Py.path_join root name) name e
         ∧ Fs.is_dir (Some e) = false.
Proof.
  induction n as [content|es IH|] using node_ind; intros top root ds fns name Hin Hname.
  - inversion Hin.
  - rewrite walk_node_dir in Hin. apply elem_of_cons in Hin as [Heq|Hin].
    + injection Heq as -> -> ->.
      apply elem_of_filenames in Hname as (e & Hname & He).
      exists e. split; [by apply entry_here|exact He].
    + apply list_elem_of_In, in_flat_map in Hin as [[d sub] [Hd Hin]].
      apply list_elem_of_In in Hd, Hin.
      rewrite Forall_forall in IH.
      destruct (IH (d, sub) Hd _ _ _ _ _ Hin Hname) as (e & Hunder & He).
      exists e. split; [|exact He]. by apply entry_below with d sub.
  - inversion Hin.
Qed.

(** An entry under the directory that is not a directory is found by
    the walk. *)
Lemma walk_node_complete (top : string) (n : Fs.node) (p name : string) (e : Fs.node) :
  entry_under top n p name e → Fs.is_dir (Some e) = false →
  ∃ root ds fns,
    (root, ds, fns) ∈ Fs.walk_node top n ∧ name ∈ fns ∧ p = Py.path_join root name.
Proof.
  induction 1 as [top es name e Hin|top es d sub p name e Hd _ IH]; intros He.
  - exists top, (Fs.dirnames es), (Fs.filenames es). split; [|split].
    + rewrite walk_node_dir. apply list_elem_of_here.
    + apply elem_of_filenames. by exists e.
    + reflexivity.
  - destruct (IH He) as (root & ds & fns & Hin & Hname & ->).
    exists root, ds, fns. split; [|split; [exact Hname|reflexivity]].
    rewrite walk_node_dir. apply list_elem_of_further.
    apply list_elem_of_In, in_flat_map. exists (d, sub).
    split; apply list_elem_of_In; assumption.
Qed.


(** The inner loop appends the paths of the file names it keeps. *)
Lemma elem_of_inner_loop (allowed : gset string) (root : string)
    (filenames files : list string) (p : string) :
  p ∈ foldl (keep_file allowed root) files filenames
  ↔ p ∈ files
    ∨ ∃ name, name ∈ filenames ∧ Py.lower (extension name) ∈ allowed
              ∧ p = Py.path_join root name.
Proof.
  revert files. induction filenames as [|filename filenames IH]; intros files; simpl.
  - split; [by left|]. intros [Hp|(name & Hname & _)]; [exact Hp|inversion Hname].
  - rewrite IH. unfold keep_file. fold (extension filename).
    case_bool_decide as Hext.
    + rewrite elem_of_app, list_elem_of_singleton. split.
      * intros [[Hp| ->]|(name & Hname & Hok & ->)].
        -- by left.
        -- right. exists filename. split; [apply list_elem_of_here|done].
        -- right. exists name. split; [by apply list_elem_of_further|done].
      * intros [Hp|(name & Hname & Hok & ->)]; [by left; left|].
        apply elem_of_cons in Hname as [->|Hname].
        -- left. by right.
        -- right. by exists name.
    + split.
      * intros [Hp|(name & Hname & Hok & ->)]; [by left|].
        right. exists name. split; [by apply list_elem_of_further|done].
      * intros [Hp|(name & Hname & Hok & ->)]; [by left|].
        apply elem_of_cons in Hname as [->|Hname]; [contradiction|].
        right. by exists name.
Qed.

(** The outer loop does so for every triple of the walk. *)
Lemma elem_of_outer_loop (allowed : gset string)
    (triples : list (string * list string * list string)) (files : list string)
    (p : string) :
  p ∈ foldl (λ files '(root, _, filenames),
               foldl (keep_file allowed root) files filenames) files triples
  ↔ p ∈ files
    ∨ ∃ root ds fns name,
        (root, ds, fns) ∈ triples ∧ name ∈ fns
        ∧ Py.lower (extension name) ∈ allowed ∧ p = Py.path_join root name.
Proof.
  revert files. induction triples as [|[[root ds] fns] triples IH]; intros files; simpl.
  - split; [by left|]. intros [Hp|(r & d & f & name & Hin & _)]; [exact Hp|inversion Hin].
  - rewrite IH, elem_of_inner_loop. split.
    + intros [[Hp|(name & Hname & Hok & ->)]|(r & d & f & name & Hin & Hname & Hok & ->)].
      * by left.
      * right. exists root, ds, fns, name. split; [apply list_elem_of_here|done].
      * right. exists r, d, f, name. split; [by apply list_elem_of_further|done].
    + intros [Hp|(r & d & f & name & Hin & Hname & Hok & ->)]; [by left; left|].
      apply elem_of_cons in Hin as [Heq|Hin].
      * injection Heq as -> -> ->. left. right. by exists name.
      * right. by exists r, d, f, name.
Qed.

(** What [get_file_list] returns: the entries under the directory that
    are not directories and whose extension, put in lower case, is a
    member of the set. *)
Lemma get_file_list_exact (fs : Fs.node) (directory : string)
    (allowed : gset string) (p : string) :
  p ∈ get_file_list fs directory allowed ↔ scan_lower_case fs directory allowed p.
Proof.
  unfold get_file_list, scan_lower_case, not_directory_under, Fs.walk.
  rewrite elem_of_outer_loop. split.
  - intros [Hp|(root & ds & fns & name & Hin & Hname & Hok & ->)]; [inversion Hp|].
    destruct (Fs.lookup fs directory) as [n|]; [|inversion Hin].
    exists name. split; [|exact Hok].
    destruct (walk_node_sound n directory root ds fns name Hin Hname) as (e & Hunder & He).
    by exists n, e.
  - intros (name & (n & e & Hlook & Hunder & He) & Hok). right. rewrite Hlook.
    apply (walk_node_complete _ _ _ _ _ Hunder) in He as (root & ds & fns & Hin & Hname & ->).
    by exists root, ds, fns, name.
Qed.







(** C9. Scanning a directory that does not exist, or one with no
    entry, gives the empty list. [get_file_list] returns a list on every
    input: [os.walk] passes over the errors of the directory listing,
    so there is no exception to model. *)
Theorem scan_of_nothing_is_empty (fs : Fs.node) (directory : string)
    (allowed : gset string) :
  Fs.exists_ fs directory = false ∨ Fs.lookup fs directory = Some (Fs.Dir []) →
  get_file_list fs directory allowed = [].
Proof.
  unfold get_file_list, Fs.walk, Fs.exists_.
  intros [Hmissing|Hempty].
  - destruct (Fs.lookup fs directory); [discriminate|reflexivity].
  - rewrite Hempty. reflexivity.
Qed.

Lemma scan_of_nothing_witness :
  get_file_list Scenario.drive "/home/u/nowhere" {[ ".pdf" ]} = []
  ∧ get_file_list Scenario.drive "/home/u/GoogleDrive/empty" {[ ".pdf"; ".epub"; ".md" ]} = [].
Proof.
  split.
  - apply (scan_of_nothing_is_empty Scenario.drive "/home/u/nowhere" {[ ".pdf" ]}).
    left. reflexivity.
  - apply (scan_of_nothing_is_empty Scenario.drive "/home/u/GoogleDrive/empty"
             {[ ".pdf"; ".epub"; ".md" ]}).
    right. reflexivity.
Defined.

End Scan.

(** ** Facts on the file system *)

Module FsFacts.

Import Fs.

(** The entry of a name after [upsert]. *)
Lemma entry_upsert (c k : string) (f : option node → node) (es : list (string * node)) :
  entry k (upsert c f es) = if String.eqb c k then Some (f (entry c es)) else entry k es.
Proof.
  induction es as [|[k0 n0] es IH]; simpl.
  - destruct (String.eqb c k); reflexivity.
  - destruct (String.eqb k0 c) eqn:Hk0c; simpl.
    + apply String.eqb_eq in Hk0c as ->. destruct (String.eqb c k); reflexivity.
    + rewrite IH. destruct (String.eqb c k) eqn:Hck; [|reflexivity].
      apply String.eqb_eq in Hck as ->. rewrite Hk0c. reflexivity.
Qed.

(** What lies under a directory that exists is reached through
    directories. *)
Lemma is_dir_prefix (q q' : list string) (n : node) :
  is_dir (get n (q ++ q')) = true → is_dir (get n q) = true.
Proof.
  revert n. induction q as [|c q IH]; intros n; simpl.
  - destruct q' as [|c q']; [done|]. simpl. by destruct n.
  - destruct n as [content|es|]; [done| |done]. destruct (entry c es); [apply IH|done].
Qed.

(** Reading back what [put] wrote in an existing directory. *)
Lemma get_put (q : list string) (c : string) (v n : node) :
  is_dir (get n q) = true → get (put (q ++ [c]) v n) (q ++ [c]) = Some v.
Proof.
  revert n. induction q as [|d q IH]; intros n; simpl.
  - destruct n as [content|es|]; [done| |done]. intros _. simpl.
    rewrite entry_upsert, String.eqb_refl. reflexivity.
  - destruct n as [content|es|]; [done| |done]. simpl.
    rewrite entry_upsert, String.eqb_refl.
    destruct (entry d es) as [ch|]; [|done]. apply IH.
Qed.

(** Writing a file where there was no directory leaves the directories
    as they were: the same paths name directories before and after. *)
Lemma is_dir_put_file (q : list string) (c content : string) (n : node) (p : list string) :
  is_dir (get n q) = true →
  is_dir (get n (q ++ [c])) = false →
  is_dir (get (put (q ++ [c]) (File content) n) p) = is_dir (get n p).
Proof.
  revert n p. induction q as [|d q IH]; intros n p; simpl.
  - destruct n as [x|es|]; [done| |done]. intros _ Hc. destruct p as [|k p]; [done|].
    simpl. rewrite entry_upsert. destruct (String.eqb c k) eqn:Hck; [|done].
    apply String.eqb_eq in Hck as <-.
    destruct (entry c es) as [[x|sub|]|]; [|done| |]; by destruct p.
  - destruct n as [x|es|]; [done| |done]. intros Hq Hc. destruct p as [|k p]; [done|].
    simpl. rewrite entry_upsert. destruct (String.eqb d k) eqn:Hdk; [|done].
    apply String.eqb_eq in Hdk as <-.
    destruct (entry d es) as [ch|]; [|done]. by apply IH.
Qed.

(** Resolution looks at the file system through the directories only. *)
Lemma resolve_ext (fs fs' : node) (cs acc : list string) :
  (∀ p, is_dir (get fs' p) = is_dir (get fs p)) →
  resolve fs' acc cs = resolve fs acc cs.
Proof.
  intros Hsame. revert acc. induction cs as [|c cs IH]; intros acc; simpl; [done|].
  rewrite Hsame. destruct (is_dir (get fs (rev acc))); [|done].
  destruct (String.eqb c "" || String.eqb c "."); [apply IH|].
  destruct (String.eqb c ".."); apply IH.
Qed.

Lemma placed_tail (fs : node) (acc : list string) :
  is_dir (get fs (rev acc)) = true → placed fs (tail acc).
Proof.
  destruct acc as [|c [|d acc]]; simpl; [done..|].
  intros Hdir. rewrite <- app_assoc in Hdir. by apply is_dir_prefix in Hdir.
Qed.

Lemma resolve_placed (fs : node) (cs acc r : list string) :
  placed fs acc → resolve fs acc cs = Some r → ∃ a, r = rev a ∧ placed fs a.
Proof.
  revert acc. induction cs as [|c cs IH]; intros acc Hacc; simpl.
  - intros [= <-]. by exists acc.
  - destruct (is_dir (get fs (rev acc))) eqn:Hdir; [|done].
    destruct (String.eqb c "" || String.eqb c "."); [by apply IH|].
    destruct (String.eqb c "..").
    + apply IH. by apply placed_tail.
    + apply IH. exact Hdir.
Qed.

(** The error of a path that does not resolve is one of two. *)
Lemma resolve_error_cases (fs : node) (cs acc : list string) :
  resolve_error fs acc cs = FileNotFoundError
  ∨ resolve_error fs acc cs = NotADirectoryError.
Proof.
  revert acc. induction cs as [|c cs IH]; intros acc; simpl; [by left|].
  destruct (get fs (rev acc)) as [[x|es|]|]; [by right| |by right|by left].
  destruct (String.eqb c "" || String.eqb c "."); [apply IH|].
  destruct (String.eqb c ".."); apply IH.
Qed.

(** It is [NotADirectoryError] exactly when a component is entered from
    an entry that is there and is not a directory. *)
Lemma resolve_error_not_a_directory (fs : node) (cs acc : list string) :
  resolve_error fs acc cs = NotADirectoryError
  ↔ ∃ cs1 c cs2 r n,
      cs = (cs1 ++ c :: cs2)%list
      ∧ resolve fs acc cs1 = Some r
      ∧ get fs r = Some n
      ∧ is_dir (Some n) = false.
Proof.
  revert acc. induction cs as [|c cs IH]; intros acc.
  - simpl. split; [done|]. intros (cs1 & c & cs2 & r & n & Hcs & _).
    by destruct cs1.
  - cbn [resolve_error].
    assert (∀ acc', (∀ cs1, resolve fs acc (c :: cs1) = resolve fs acc' cs1) →
              is_dir (get fs (rev acc)) = true →
              resolve_error fs acc' cs = NotADirectoryError
              ↔ ∃ cs1 c0 cs2 r n,
                  c :: cs = (cs1 ++ c0 :: cs2)%list
                  ∧ resolve fs acc cs1 = Some r
                  ∧ get fs r = Some n
                  ∧ is_dir (Some n) = false) as Hstep.
    { intros acc' Hres Hdir. rewrite IH. split.
      - intros (cs1 & c0 & cs2 & r & n & -> & Hr & Hn & Hnd).
        exists (c :: cs1), c0, cs2, r, n. by rewrite Hres.
      - intros (cs1 & c0 & cs2 & r & n & Hcs & Hr & Hn & Hnd).
        destruct cs1 as [|c1 cs1].
        + simpl in Hr. injection Hr as <-. rewrite Hn in Hdir. congruence.
        + injection Hcs as <- ->. rewrite Hres in Hr.
          by exists cs1, c0, cs2, r, n. }
    destruct (get fs (rev acc)) as [[x|es|]|] eqn:Hget.
    + split; [intros _|done]. by exists [], c, cs, (rev acc), (File x).
    + destruct (String.eqb c "" || String.eqb c ".") eqn:Hstay;
        [|destruct (String.eqb c "..") eqn:Hup];
        (apply Hstep; [|done]); intros cs1; simpl; by rewrite Hget, ?Hstay, ?Hup.
    + split; [intros _|done]. by exists [], c, cs, (rev acc), Other.
    + split; [done|]. intros (cs1 & c0 & cs2 & r & n & Hcs & Hr & Hn & Hnd).
      destruct cs1 as [|c1 cs1].
      * simpl in Hr. injection Hr as <-. congruence.
      * simpl in Hr. by rewrite Hget in Hr.
Qed.

(** The error of a path string that names nothing. *)
Lemma errno_spec (fs : node) (path : string) :
  (errno fs path = NotADirectoryError ↔ Shape.through_non_directory fs path)
  ∧ (errno fs path = FileNotFoundError ∨ errno fs path = NotADirectoryError).
Proof.
  unfold errno, Shape.through_non_directory.
  destruct (String.eqb_spec path "") as [Hempty|Hne].
  - split; [|by left]. split; [done|]. by intros (cs1 & c & cs2 & r & n & Hpath & _).
  - split; [|apply resolve_error_cases].
    rewrite resolve_error_not_a_directory. split.
    + intros (cs1 & c & cs2 & r & n & H). by exists cs1, c, cs2, r, n.
    + intros (cs1 & c & cs2 & r & n & _ & H). by exists cs1, c, cs2, r, n.
Qed.

(** A file written at a path that named nothing is read back. *)
Lemma write_new (fs : node) (path content : string) :
  exists_ fs path = false → reachable fs path = true →
  ∃ fs', write fs path content = Returns fs'
         ∧ read fs' path = Some content
         ∧ exists_ fs' path = true.
Proof.
  unfold exists_, reachable, write, read, lookup.
  destruct (canon fs path) as [r|] eqn:Hcanon; [|done].
  destruct (get fs r) as [n|] eqn:Hget; [done|]. intros _ _.
  exists (put r (File content) fs). split; [reflexivity|].
  unfold canon in *. destruct (String.eqb path ""); [done|].
  destruct (resolve_placed fs _ [] r I Hcanon) as ([|c q] & -> & Hplaced).
  { simpl in Hget. done. }
  simpl in Hplaced, Hget |- *.
  rewrite (resolve_ext fs).
  - rewrite Hcanon, get_put by exact Hplaced. done.
  - intros p. apply is_dir_put_file; [exact Hplaced|]. by rewrite Hget.
Qed.

(** *** Paths made by [os.path.join] *)

(** [simpl] leaves the append of strings folded; these unfold it. *)
Lemma app_cons (c : ascii) (a b : string) : String c a ++ b = String c (a ++ b).
Proof. reflexivity. Qed.

Lemma app_empty (b : string) : "" ++ b = b.
Proof. reflexivity. Qed.

Lemma app_assoc_string (a b c : string) : (a ++ b) ++ c = a ++ b ++ c.
Proof.
  induction a as [|x a IH]; [reflexivity|].
  change (String x ((a ++ b) ++ c) = String x (a ++ b ++ c)). by rewrite IH.
Qed.

Lemma split_slash_cons (s : string) : ∃ w ws, Py.split_slash s = w :: ws.
Proof.
  destruct s as [|c s]; simpl; [by eexists _, _|].
  destruct (Ascii.eqb c "/"); [by eexists _, _|].
  destruct (Py.split_slash s); by eexists _, _.
Qed.

(** Splitting distributes over a slash. *)
Lemma split_slash_app (a b : string) :
  Py.split_slash (a ++ "/" ++ b) = (Py.split_slash a ++ Py.split_slash b)%list.
Proof.
  induction a as [|c a IH]; [reflexivity|].
  rewrite app_cons. simpl. rewrite IH. destruct (Ascii.eqb c "/"); [reflexivity|].
  destruct (split_slash_cons a) as (w & ws & ->). reflexivity.
Qed.

(** A plain name is its own single component. *)
Lemma split_slash_plain (s : string) : Py.plain s = true → Py.split_slash s = [s].
Proof.
  induction s as [|c s IH]; [reflexivity|].
  simpl. destruct (Ascii.eqb c "/"); [done|]. simpl. intros Hs. by rewrite IH.
Qed.

Lemma plain_not_absolute (s : string) : Py.plain s = true → Py.startswith s "/" = false.
Proof.
  destruct s as [|c s]; [reflexivity|].
  cbn [Py.plain]. intros Hp. apply andb_true_iff in Hp as [Hc _].
  unfold Py.startswith. cbn [String.prefix].
  destruct (ascii_dec "/" c) as [<-|_]; [done|reflexivity].
Qed.

Lemma substring_all (s : string) : String.substring 0 (String.length s) s = s.
Proof. induction s as [|c s IH]; simpl; [reflexivity|by rewrite IH]. Qed.

(** A string is its first [k] characters followed by the others. *)
Lemma take_drop (k : nat) (s : string) :
  s = String.substring 0 k s ++ String.substring k (String.length s - k) s.
Proof.
  revert k. induction s as [|c s IH]; intros [|k]; simpl; try reflexivity.
  - by rewrite app_empty, substring_all.
  - rewrite app_cons. f_equal. apply IH.
Qed.

(** A string that ends with a slash is a string followed by a slash. *)
Lemma endswith_slash (s : string) :
  Py.endswith s "/" = true → ∃ a, s = a ++ "/".
Proof.
  unfold Py.endswith. simpl. intros H. apply andb_true_iff in H as [Hlen H].
  apply String.eqb_eq in H.
  exists (String.substring 0 (String.length s - 1) s).
  pose proof (take_drop (String.length s - 1) s) as Hsplit.
  replace (String.length s - (String.length s - 1)) with 1 in Hsplit
    by (destruct (String.length s); [discriminate|lia]).
  by rewrite H in Hsplit.
Qed.

(** Resolution of a list of components in two parts. *)
Lemma resolve_app (fs : node) (cs1 cs2 acc : list string) :
  resolve fs acc (cs1 ++ cs2)
  = match resolve fs acc cs1 with
    | Some r => resolve fs (rev r) cs2
    | None => None
    end.
Proof.
  revert acc. induction cs1 as [|c cs1 IH]; intros acc; simpl.
  - by rewrite rev_involutive.
  - destruct (is_dir (get fs (rev acc))); [|done].
    destruct (String.eqb c "" || String.eqb c "."); [apply IH|].
    destruct (String.eqb c ".."); apply IH.
Qed.

(** One more name, from a directory. *)
Lemma resolve_name (fs : node) (r : list string) (base : string) :
  is_dir (get fs r) = true →
  String.eqb base "" = false → String.eqb base "." = false →
  String.eqb base ".." = false →
  resolve fs (rev r) [base] = Some (r ++ [base])%list.
Proof.
  intros Hdir H0 H1 H2. simpl.
  rewrite rev_involutive, Hdir, H0, H1, H2. reflexivity.
Qed.

(** In a directory that exists, the path of a plain name can be
    created: [os.path.join] of the two is reachable. *)
Lemma reachable_in_directory (fs : node) (directory base : string) :
  isdir fs directory = true →
  Py.plain base = true →
  String.eqb base "" = false → String.eqb base "." = false →
  String.eqb base ".." = false →
  reachable fs (Py.path_join directory base) = true.
Proof.
  unfold isdir, lookup, reachable, canon, Py.path_join.
  intros Hdir Hplain H0 H1 H2.
  rewrite (plain_not_absolute base Hplain).
  destruct (String.eqb_spec directory "") as [->|Hne]; [done|]. simpl.
  destruct (resolve fs [] (Py.split_slash directory)) as [r|] eqn:Hres; [|done].
  destruct (Py.endswith directory "/") eqn:Hend.
  - apply endswith_slash in Hend as [a ->].
    rewrite app_assoc_string.
    change (a ++ "/") with (a ++ "/" ++ "") in Hres.
    rewrite split_slash_app, resolve_app in Hres.
    destruct (String.eqb (a ++ "/" ++ base) "") eqn:Hempty.
    { apply String.eqb_eq in Hempty. destruct a; discriminate. }
    rewrite split_slash_app, resolve_app, (split_slash_plain base Hplain).
    destruct (resolve fs [] (Py.split_slash a)) as [r'|]; [|done].
    simpl in Hres. rewrite rev_involutive in Hres.
    destruct (is_dir (get fs r')) eqn:Hr'; [|done].
    by rewrite resolve_name.
  - destruct (String.eqb (directory ++ "/" ++ base) "") eqn:Hempty.
    { apply String.eqb_eq in Hempty. destruct directory; [done|discriminate]. }
    rewrite split_slash_app, resolve_app, Hres, (split_slash_plain base Hplain).
    by rewrite resolve_name.
Qed.

(** The file name of a note is a name, not a place holder. *)
Lemma note_name_is_a_name (note_name : string) :
  String.eqb (note_name ++ ".md") "" = false
  ∧ String.eqb (note_name ++ ".md") "." = false
  ∧ String.eqb (note_name ++ ".md") ".." = false.
Proof.
  destruct note_name as [|a [|b [|c s]]]; repeat split; try reflexivity;
    rewrite ?app_cons, ?app_empty; simpl;
    destruct (Ascii.eqb a "."); try reflexivity;
    destruct (Ascii.eqb b "."); reflexivity.
Qed.

Lemma plain_app (a b : string) :
  Py.plain a = true → Py.plain b = true → Py.plain (a ++ b) = true.
Proof.
  induction a as [|c a IH]; [done|].
  rewrite app_cons. simpl. destruct (Ascii.eqb c "/"); [done|]. simpl. exact IH.
Qed.

End FsFacts.

(** ** The commands that create *)

Module Create.

Import Run Notes Trace Spec.

Section Create.

Context (env : environment).


(** The second branch: the file is written, the success is printed, and
    the editor is started on the world so made. *)
Lemma create_new (note_name directory : string) (w : world) (fs1 : Fs.node) :
  Fs.exists_ (fs w) (note_path env note_name directory) = false →
  Fs.write (fs w) (note_path env note_name directory) ("# " ++ note_name) = Returns fs1 →
  create env note_name directory w
  = open_in_editor env (note_path env note_name directory)
      (printed (note_created env note_name directory) (with_fs fs1 w)).
Proof.
  intros Hex Hwrite. unfold create, reading, changing, mbind, M_bind.
  fold (note_path env note_name directory). rewrite Hex, Hwrite. reflexivity.
Qed.


(** [create_project] stops at the first of its two checks that fails,
    with a line for the console. *)
Lemma create_project_existing (project_name template : string) (git : bool)
    (directory : string) (w : world) :
  Fs.exists_ (fs w) (project_path env project_name directory) = true →
  create_project env project_name template git directory w
  = print env (project_exists project_name) w.
Proof.
  intros Hex. unfold create_project, reading, mbind, M_bind.
  fold (project_path env project_name directory). rewrite Hex. reflexivity.
Qed.


(** The lines of [create_project] are printed when the names they hold
    have no slash: nothing in them can close a tag. *)
Lemma print_project_exists (project_name : string) (w : world) :
  Py.plain project_name = true →
  print env (project_exists project_name) w
  = (Returns tt, printed (project_exists project_name) w).
Proof.
  intros Hplain.
  apply (Printing.print_error env _ (" Project '" ++ project_name ++ "' already exists."));
    [reflexivity|].
  apply (FsFacts.plain_app " Project '"); [reflexivity|].
  by apply FsFacts.plain_app.
Qed.


Lemma accepts_project_created (project_name template : string) :
  Py.plain project_name = true → Py.plain template = true →
  Markup.accepts (style_normal_form env) (meta_parses env)
    (Shape.project_created project_name template) = true.
Proof.
  intros Hname Htemplate.
  apply (Printing.accepts_success _ _
           (" Project '" ++ project_name ++ "' created with template '" ++ template ++ "'.")).
  apply (FsFacts.plain_app " Project '"); [reflexivity|].
  apply FsFacts.plain_app; [exact Hname|].
  apply (FsFacts.plain_app "' created with template '"); [reflexivity|].
  by apply FsFacts.plain_app.
Qed.

(** In a directory that exists, a note with a plain name can be created. *)
Lemma note_path_reachable (note_name directory : string) (fsys : Fs.node) :
  Fs.isdir fsys (expanduser env directory) = true →
  Py.plain note_name = true →
  Fs.reachable fsys (note_path env note_name directory) = true.
Proof.
  intros Hdir Hplain. unfold note_path.
  destruct (FsFacts.note_name_is_a_name note_name) as (H0 & H1 & H2).
  apply FsFacts.reachable_in_directory; try assumption.
  by apply FsFacts.plain_app.
Qed.

End Create.




(** The two calls in a row, with an editor that leaves the note as it
    is: one file, one editor, the two lines. *)
Example create_twice :
  (create (Scenario.scripted 0 "") "foo" "~/GoogleDrive" ;;
   create (Scenario.scripted 0 "") "foo" "~/GoogleDrive") Scenario.start
  = (Returns tt,
     {| fs := Fs.put ["home"; "u"; "GoogleDrive"; "foo.md"] (Fs.File "# foo") Scenario.drive;
        procs := [viewer "vi" "/home/u/GoogleDrive/foo.md"];
        console := [ "Success: Note 'foo' created in /home/u/GoogleDrive.";
                     "Error: Note 'foo' already exists." ] |}).
Proof. reflexivity. Qed.




End Create.

(** ** The flow of the commands *)

Module Flow.

Import Run Notes Trace Spec Shape.

Section Flow.

Context (env : environment).

(** [fzf_select] after a selector that exits with 0, in terms of
    [opened]. *)
Lemma fzf_select_opened (files : list string) (w : world) (c : completed)
    (selected_file : string) :
  exec env w (selector (fzf_input env files)) = Some c →
  returncode c = 0%Z →
  first_match files (Py.strip (stdout c)) = Some selected_file →
  fzf_select env files w
  = opened env selected_file (waited (selector (fzf_input env files)) c w).
Proof.
  intros Hexec Hrc Hfirst.
  rewrite (Select.fzf_select_chosen env files w c Hexec Hrc). simpl.
  rewrite Hfirst. unfold opened.
  destruct (open_file_with_appropriate_viewer env selected_file _) as [[u|e] w2];
    [reflexivity|].
  destruct e; reflexivity.
Qed.

(** The first match of a list that starts with elements that do not
    match. *)
Lemma first_match_skip (before after : list string) (file label : string) :
  (∀ g, g ∈ before → Py.endswith g label = false) →
  Py.endswith file label = true →
  first_match (before ++ file :: after) label = Some file.
Proof.
  intros Hbefore Hfile. unfold first_match.
  rewrite filter_app, (Select.filter_none _ before Hbefore), filter_cons.
  simpl. destruct (decide (Py.endswith file label)) as [_|Hno]; [reflexivity|].
  rewrite Hfile in Hno. by destruct Hno.
Qed.

(** Every string ends with the empty string. *)
Lemma endswith_nothing (s : string) : Py.endswith s "" = true.
Proof.
  unfold Py.endswith. simpl. generalize (String.length s - 0). intros n.
  assert (String.substring n 0 s = "") as ->; [|reflexivity].
  revert n. induction s as [|c s IH]; intros [|n]; simpl; auto.
Qed.

End Flow.

(** X1. When the scan finds files, [open_file] gets no path from
    [fzf_select]: if the selection returns, the command prints "No file
    selected." on the world the selection left, and if it raises, the
    exception goes through. The dispatch of [open_file] itself is not
    run. *)
Theorem open_file_never_dispatches (env : environment) (directory : string)
    (pdf_only uni : bool) (w : world) (file : string) (files : list string) :
  get_file_list (fs w) (scan_root env directory uni) (scan_types pdf_only) = file :: files →
  open_file env directory pdf_only uni w
  = match fzf_select env (file :: files) w with
    | (Returns _, w') => (Returns tt, printed no_file_selected w')
    | (Raises e, w') => (Raises e, w')
    end.
Proof.
  intros Hscan. unfold open_file, reading, mbind, M_bind.
  fold (scan_types pdf_only). fold (scan_root env directory uni).
  rewrite Hscan.
  destruct (fzf_select env (file :: files) w) as [[v|e] w'] eqn:Hsel; [|reflexivity].
  apply Select.fzf_select_returns_no_path in Hsel as ->. by Printing.print_line.
Qed.

Lemma open_file_never_dispatches_witness :
  open_file (Scenario.scripted 0 "sub/book.epub") "~/GoogleDrive" false false Scenario.start
  = match fzf_select (Scenario.scripted 0 "sub/book.epub")
            [ "/home/u/GoogleDrive/a.md"; "/home/u/GoogleDrive/b.PDF";
              "/home/u/GoogleDrive/sub/book.epub" ] Scenario.start with
    | (Returns _, w') => (Returns tt, printed no_file_selected w')
    | (Raises e, w') => (Raises e, w')
    end.
Proof.
  apply (open_file_never_dispatches (Scenario.scripted 0 "sub/book.epub")
           "~/GoogleDrive" false false Scenario.start).
  by vm_compute.
Defined.

(** X2. In [search_project], once a project folder with something in it
    is chosen, the headers are printed and [fzf_select] runs on the
    folders and files; if it returns, the command prints "No item
    selected." and ends. The branch that lists a chosen sub-folder
    ([get_files_in_folder] and a third selection) is never run. *)
Theorem search_project_never_lists_a_folder (env : environment) (directory : string)
    (w w1 : world) (folder : string) (folders : list string) (name : string)
    (subfolders files : list string) :
  get_first_level_folders (expanduser env "~/GoogleDrive/Projects") (fs w)
    (expanduser env directory) = Returns (folder :: folders) →
  fzf_select_project env (folder :: folders) w = (Returns (Some name), w1) →
  name ≠ "" →
  get_folders_and_files (fs w1) (Py.path_join (expanduser env directory) name)
  = (subfolders, files) →
  (subfolders ++ files)%list ≠ [] →
  search_project env directory w
  = match fzf_select env (subfolders ++ files)%list (headers subfolders files w1) with
    | (Returns _, w2) => (Returns tt, printed no_item_selected w2)
    | (Raises e, w2) => (Raises e, w2)
    end.
Proof.
  intros Hfolders Hsel Hname Hitems Hsome.
  unfold search_project, reading_or_raise, reading, mbind, M_bind.
  rewrite Hfolders, Hsel. apply String.eqb_neq in Hname. rewrite Hname, Hitems.
  destruct subfolders as [|sf subfolders], files as [|f files]; [done|..];
    unfold headers, mret, M_ret; cbv beta iota zeta;
    repeat (Printing.print_line; cbv beta iota zeta);
    (destruct (fzf_select env _ _) as [[v|e] w2] eqn:Hitem; [|reflexivity]);
    apply Select.fzf_select_returns_no_path in Hitem as ->; cbn [falsy];
    by Printing.print_line.
Qed.

Lemma search_project_witness :
  search_project (two_choices "GoogleDrive" "a.md") "/home/u" Scenario.start
  = (Returns tt,
     {| fs := Scenario.drive;
        procs := [ selector "GoogleDrive";
                   selector ("a.md" ++ Scenario.newline ++ "b.PDF" ++ Scenario.newline
                             ++ "sub/book.epub" ++ Scenario.newline ++ "sub/d.txt");
                   viewer "nvim" "/home/u/GoogleDrive/a.md" ];
        console := [ "Files in the selected folder:"; no_item_selected ] |}).
Proof.
  rewrite (search_project_never_lists_a_folder (two_choices "GoogleDrive" "a.md")
             "/home/u" Scenario.start
             (waited (selector "GoogleDrive")
                {| returncode := 0; stdout := "GoogleDrive"; fs_after := Scenario.drive |}
                Scenario.start)
             "GoogleDrive" [] "GoogleDrive" []
             [ "/home/u/GoogleDrive/a.md"; "/home/u/GoogleDrive/b.PDF";
               "/home/u/GoogleDrive/sub/book.epub"; "/home/u/GoogleDrive/sub/d.txt" ]).
  - reflexivity.
  - reflexivity.
  - reflexivity.
  - discriminate.
  - reflexivity.
  - discriminate.
Defined.

(** X3. A directory that does not exist: [open_file] prints "No files
    found." and starts nothing, while [search_project] raises the error
    of [os.scandir] before it prints or starts anything, as [os.scandir]
    does not pass over the error the way [os.walk] does. The error is
    [NotADirectoryError] when the path goes through an entry that is
    not a directory, and [FileNotFoundError] otherwise. *)
Theorem missing_directory (env : environment) (directory : string)
    (pdf_only uni : bool) (w : world) :
  (Fs.exists_ (fs w) (scan_root env directory uni) = false →
   open_file env directory pdf_only uni w = (Returns tt, printed no_files_found w))
  ∧ (Fs.exists_ (fs w) (expanduser env directory) = false →
     ∃ e, search_project env directory w = (Raises (OSError e), w)
          ∧ (e = NotADirectoryError ↔ through_non_directory (fs w) (expanduser env directory))
          ∧ (e = FileNotFoundError ∨ e = NotADirectoryError)).
Proof.
  split; intros Hmissing.
  - unfold open_file, reading, mbind, M_bind.
    fold (scan_types pdf_only). fold (scan_root env directory uni).
    unfold get_file_list, Fs.walk. unfold Fs.exists_ in Hmissing.
    destruct (Fs.lookup (fs w) (scan_root env directory uni)); [discriminate|].
    cbn [foldl]. by Printing.print_line.
  - exists (Fs.errno (fs w) (expanduser env directory)).
    split; [|apply FsFacts.errno_spec].
    unfold search_project, reading_or_raise, get_first_level_folders, Fs.scandir,
      mbind, M_bind.
    unfold Fs.exists_ in Hmissing.
    destruct (Fs.lookup (fs w) (expanduser env directory)); [discriminate|reflexivity].
Qed.

Lemma missing_directory_witness :
  (open_file (Scenario.scripted 0 "") "~/Documents" false true Scenario.start
   = (Returns tt, printed no_files_found Scenario.start)
   ∧ search_project (Scenario.scripted 0 "") "~/Documents" Scenario.start
     = (Raises (OSError FileNotFoundError), Scenario.start))
  ∧ search_project (Scenario.scripted 0 "") "~/GoogleDrive/a.md/x" Scenario.start
    = (Raises (OSError NotADirectoryError), Scenario.start).
Proof.
  destruct (missing_directory (Scenario.scripted 0 "") "~/Documents" false true
              Scenario.start) as [Hopen Hsearch].
  destruct (missing_directory (Scenario.scripted 0 "") "~/GoogleDrive/a.md/x" false true
              Scenario.start) as [_ Hthrough].
  split; [split|].
  - apply Hopen. reflexivity.
  - destruct Hsearch as (e & Hrun & _); [reflexivity|].
    rewrite Hrun. vm_compute in Hrun. injection Hrun as <-. reflexivity.
  - destruct Hthrough as (e & Hrun & _); [reflexivity|].
    rewrite Hrun. vm_compute in Hrun. injection Hrun as <-. reflexivity.
Defined.

(** X9. A selector that exits with 0 and writes nothing but white space
    gives the empty label, which ends every candidate: [fzf_select]
    opens the first candidate of the list. *)
Theorem blank_label_opens_first_candidate (env : environment) (file : string)
    (files : list string) (w : world) (c : completed) :
  exec env w (selector (fzf_input env (file :: files))) = Some c →
  returncode c = 0%Z →
  Py.strip (stdout c) = "" →
  fzf_select env (file :: files) w
  = opened env file (waited (selector (fzf_input env (file :: files))) c w).
Proof.
  intros Hexec Hrc Hblank. apply fzf_select_opened; [exact Hexec|exact Hrc|].
  rewrite Hblank. apply (first_match_skip [] files file "").
  - intros g Hg. inversion Hg.
  - apply endswith_nothing.
Qed.

Lemma blank_label_witness :
  fzf_select (Scenario.scripted 0 Scenario.newline)
    ["/home/u/GoogleDrive/b.PDF"; "/home/u/GoogleDrive/a.md"] Scenario.start
  = opened (Scenario.scripted 0 Scenario.newline) "/home/u/GoogleDrive/b.PDF"
      (waited (selector ("b.PDF" ++ Scenario.newline ++ "a.md"))
         {| returncode := 0; stdout := Scenario.newline; fs_after := Scenario.drive |}
         Scenario.start).
Proof.
  apply (blank_label_opens_first_candidate (Scenario.scripted 0 Scenario.newline)
           "/home/u/GoogleDrive/b.PDF" ["/home/u/GoogleDrive/a.md"] Scenario.start
           {| returncode := 0; stdout := Scenario.newline; fs_after := Scenario.drive |});
    reflexivity.
Defined.

(** X10. The candidate [fzf_select] opens is the first of the list that
    ends with the label: the candidates after it are not looked at, so
    a later candidate is never opened through a label that also ends an
    earlier one, its own label included. *)
Theorem first_candidate_with_suffix_is_opened (env : environment)
    (before after : list string) (file : string) (w : world) (c : completed) :
  exec env w (selector (fzf_input env (before ++ file :: after)%list)) = Some c →
  returncode c = 0%Z →
  (∀ g, g ∈ before → Py.endswith g (Py.strip (stdout c)) = false) →
  Py.endswith file (Py.strip (stdout c)) = true →
  fzf_select env (before ++ file :: after)%list w
  = opened env file
      (waited (selector (fzf_input env (before ++ file :: after)%list)) c w).
Proof.
  intros Hexec Hrc Hbefore Hfile. apply fzf_select_opened; [exact Hexec|exact Hrc|].
  by apply first_match_skip.
Qed.

Lemma first_candidate_witness :
  fzf_select (Scenario.scripted 0 "a.md")
    ["/home/u/GoogleDrive/b.PDF"; "/home/u/GoogleDrive/sub/a.md"; "/home/u/GoogleDrive/a.md"]
    Scenario.start
  = opened (Scenario.scripted 0 "a.md") "/home/u/GoogleDrive/sub/a.md"
      (waited (selector ("b.PDF" ++ Scenario.newline ++ "sub/a.md" ++ Scenario.newline
                         ++ "a.md"))
         {| returncode := 0; stdout := "a.md"; fs_after := Scenario.drive |}
         Scenario.start).
Proof.
  apply (first_candidate_with_suffix_is_opened (Scenario.scripted 0 "a.md")
           ["/home/u/GoogleDrive/b.PDF"] ["/home/u/GoogleDrive/a.md"]
           "/home/u/GoogleDrive/sub/a.md" Scenario.start
           {| returncode := 0; stdout := "a.md"; fs_after := Scenario.drive |}).
  - reflexivity.
  - reflexivity.
  - intros g Hg. apply list_elem_of_singleton in Hg as ->. reflexivity.
  - reflexivity.
Defined.

(** X11. [fzf_select_project] has two outcomes only. When the selector
    starts, it returns the output of the selector, stripped, whatever
    the exit status: never [None], and [CalledProcessError] is never
    raised. When the selector cannot be started, [FileNotFoundError]
    goes through the handler. *)
Theorem fzf_select_project_outcomes (env : environment) (items : list string) (w : world) :
  match exec env w (selector (Py.join Scenario.newline items)) with
  | Some c =>
      fzf_select_project env items w
      = (Returns (Some (Py.strip (stdout c))),
         waited (selector (Py.join Scenario.newline items)) c w)
  | None => fzf_select_project env items w = (Raises (OSError FileNotFoundError), w)
  end.
Proof.
  destruct (exec env w (selector (Py.join Scenario.newline items))) as [c|] eqn:Hexec.
  - by apply Select.fzf_select_project_output.
  - unfold fzf_select_project, try_except, Popen_communicate, spawn_wait, mbind, M_bind.
    fold Scenario.newline. fold (selector (Py.join Scenario.newline items)).
    rewrite Hexec. reflexivity.
Qed.

(** X12. [create], once the note is written: an editor that cannot be
    started raises [FileNotFoundError]; an editor that exits with a
    status other than 0 gets the error line and the command returns; an
    editor that exits with 0 adds nothing. In the three cases the note
    and the success line stay: nothing is rolled back. The editor is
    the one of [EDITOR], [vi] when it is not set. *)
Theorem create_keeps_note_when_editor_fails (env : environment)
    (note_name directory : string) (w : world) :
  Fs.exists_ (fs w) (note_path env note_name directory) = false →
  Fs.reachable (fs w) (note_path env note_name directory) = true →
  ∃ fs1,
    Fs.write (fs w) (note_path env note_name directory) ("# " ++ note_name) = Returns fs1
    ∧ let path := note_path env note_name directory in
      let w1 := printed (note_created env note_name directory) (with_fs fs1 w) in
      match exec env w1 (editor env path) with
      | None => create env note_name directory w = (Raises (OSError FileNotFoundError), w1)
      | Some c =>
          create env note_name directory w
          = (Returns tt,
             if (returncode c =? 0)%Z then waited (editor env path) c w1
             else printed (editor_failed env path (returncode c))
                    (waited (editor env path) c w1))
      end.
Proof.
  intros Hex Hreach.
  destruct (FsFacts.write_new (fs w) _ ("# " ++ note_name) Hex Hreach)
    as (fs1 & Hwrite & _ & _).
  exists fs1. split; [exact Hwrite|]. simpl.
  rewrite (Create.create_new env note_name directory w fs1 Hex Hwrite).
  unfold open_in_editor, try_except, subprocess_run, spawn_wait, mbind, M_bind.
  fold (editor env (note_path env note_name directory)).
  destruct (exec env _ (editor env (note_path env note_name directory))) as [c|];
    [|reflexivity].
  simpl. destruct (returncode c =? 0)%Z; reflexivity.
Qed.

Lemma create_keeps_note_witness :
  create (failing_editor 1) "foo" "~/GoogleDrive" Scenario.start
  = (Returns tt,
     {| fs := Fs.put ["home"; "u"; "GoogleDrive"; "foo.md"] (Fs.File "# foo") Scenario.drive;
        procs := [viewer "nano" "/home/u/GoogleDrive/foo.md"];
        console :=
          [ "Success: Note 'foo' created in /home/u/GoogleDrive.";
            "Error opening the note with the text editor: Command '['nano', '/home/u/GoogleDrive/foo.md']' returned non-zero exit status 1." ] |})
  ∧ create nothing_starts "foo" "~/GoogleDrive" Scenario.start
    = (Raises (OSError FileNotFoundError),
       {| fs := Fs.put ["home"; "u"; "GoogleDrive"; "foo.md"] (Fs.File "# foo") Scenario.drive;
          procs := [];
          console := ["Success: Note 'foo' created in /home/u/GoogleDrive."] |}).
Proof.
  split.
  - destruct (create_keeps_note_when_editor_fails (failing_editor 1) "foo" "~/GoogleDrive"
                Scenario.start) as (fs1 & Hwrite & Hrun); [reflexivity..|].
    injection Hwrite as <-. exact Hrun.
  - destruct (create_keeps_note_when_editor_fails nothing_starts "foo" "~/GoogleDrive"
                Scenario.start) as (fs1 & Hwrite & Hrun); [reflexivity..|].
    injection Hwrite as <-. exact Hrun.
Defined.


(** X15. The items of the two built-in templates are strings, so the
    inner loop of [create_project] makes files only: its directory
    branch is never taken and [create_item] raises no [TypeError]. *)
Theorem template_items_are_files (template folder : string)
    (template_files : list (string * pyval)) (items item : pyval)
    (folder_path : string) (w : world) :
  project_templates !! template = Some template_files →
  (folder, items) ∈ template_files →
  item ∈ iterate items →
  ∃ name,
    item = PStr name
    ∧ create_item folder_path item w
      = changing (λ fs, Fs.write fs (Py.path_join folder_path name) "") w.
Proof.
  intros Hlook Hfolder Hitem.
  assert (∃ name, item = PStr name) as [name ->]; [|by exists name].
  unfold project_templates in Hlook. simpl in Hlook.
  destruct (decide (template = "default")) as [->|Hd].
  - rewrite lookup_insert_eq in Hlook. injection Hlook as <-.
    repeat (apply elem_of_cons in Hfolder as [[= -> ->]|Hfolder]);
      [..|by inversion Hfolder]; simpl in Hitem;
      repeat (apply elem_of_cons in Hitem as [->|Hitem]; [by eexists|]);
      by inversion Hitem.
  - rewrite lookup_insert_ne in Hlook by done.
    destruct (decide (template = "webapp")) as [->|Hw].
    + rewrite lookup_insert_eq in Hlook. injection Hlook as <-.
      repeat (apply elem_of_cons in Hfolder as [[= -> ->]|Hfolder]);
        [..|by inversion Hfolder]; simpl in Hitem;
        repeat (apply elem_of_cons in Hitem as [->|Hitem]; [by eexists|]);
        by inversion Hitem.
    + rewrite lookup_insert_ne in Hlook by done. by rewrite lookup_empty in Hlook.
Qed.

Lemma template_items_witness :
  ∃ name,
    PStr "app.py" = PStr name
    ∧ create_item "/home/u/GoogleDrive/Projects/bar/src" (PStr "app.py") Scenario.start
      = changing (λ fs, Fs.write fs
                          (Py.path_join "/home/u/GoogleDrive/Projects/bar/src" name) "")
          Scenario.start.
Proof.
  apply (template_items_are_files "webapp" "src"
           [ ("src", PList [PStr "src"; PStr "app.py"; PStr "static"; PStr "templates"]);
             ("data", PList [PStr "data"]);
             ("docs", PList [PStr "docs"]);
             ("README.md", PStr "") ]
           (PList [PStr "src"; PStr "app.py"; PStr "static"; PStr "templates"])
           (PStr "app.py")).
  - reflexivity.
  - apply list_elem_of_here.
  - simpl. apply list_elem_of_further, list_elem_of_here.
Defined.

End Flow.

(** ** Facts on strings and paths *)

Module PathFacts.

Import Spec Shape.

Lemma length_app (x y : string) :
  String.length (x ++ y) = String.length x + String.length y.
Proof.
  induction x as [|c x IH]; [reflexivity|].
  rewrite FsFacts.app_cons. simpl. by rewrite IH.
Qed.

(** Reading a string after a prefix. *)
Lemma get_shift (x y : string) (i : nat) :
  String.get (String.length x + i) (x ++ y) = String.get i y.
Proof. induction x as [|c x IH]; [reflexivity|]. rewrite FsFacts.app_cons. exact IH. Qed.

Lemma substring_shift (x y : string) (i m : nat) :
  String.substring (String.length x + i) m (x ++ y) = String.substring i m y.
Proof. induction x as [|c x IH]; [reflexivity|]. rewrite FsFacts.app_cons. exact IH. Qed.

Lemma drop_shift (x y : string) (i : nat) :
  Py.drop (String.length x + i) (x ++ y) = Py.drop i y.
Proof.
  unfold Py.drop. rewrite substring_shift, length_app. f_equal. lia.
Qed.

Lemma has_non_dot_shift (x y : string) (n i : nat) :
  Py.has_non_dot n (String.length x + i) (x ++ y) = Py.has_non_dot n i y.
Proof.
  revert i. induction n as [|n IH]; intros i; [reflexivity|].
  simpl. rewrite get_shift. destruct (String.get i y) as [c|]; [|reflexivity].
  destruct (Ascii.eqb c "."); [|reflexivity].
  rewrite <- IH. f_equal. lia.
Qed.

(** The index [rfind] gives is [-1] or an index of the string. *)
Lemma rfind_bounds (c : ascii) (s : string) :
  (-1 ≤ Py.rfind c s < Z.of_nat (String.length s))%Z.
Proof.
  induction s as [|a s IH]; simpl; [lia|].
  destruct (0 <=? Py.rfind c s)%Z eqn:Hr; [apply Z.leb_le in Hr; lia|].
  destruct (Ascii.eqb a c); lia.
Qed.

(** The last occurrence in two strings put end to end. *)
Lemma rfind_app (c : ascii) (x y : string) :
  Py.rfind c (x ++ y)
  = if (0 <=? Py.rfind c y)%Z then (Z.of_nat (String.length x) + Py.rfind c y)%Z
    else Py.rfind c x.
Proof.
  induction x as [|a x IH].
  - rewrite FsFacts.app_empty. simpl.
    destruct (0 <=? Py.rfind c y)%Z eqn:Hr; [lia|].
    apply Z.leb_gt in Hr. pose proof (rfind_bounds c y). lia.
  - rewrite FsFacts.app_cons. simpl Py.rfind. rewrite IH.
    destruct (0 <=? Py.rfind c y)%Z eqn:Hr; [|reflexivity].
    apply Z.leb_le in Hr.
    destruct (0 <=? Z.of_nat (String.length x) + Py.rfind c y)%Z eqn:Hs.
    + simpl String.length. lia.
    + apply Z.leb_gt in Hs. lia.
Qed.

Lemma rfind_plain (s : string) : Py.plain s = true → Py.rfind "/" s = (-1)%Z.
Proof.
  induction s as [|a s IH]; [reflexivity|].
  simpl. destruct (Ascii.eqb a "/"); [done|]. simpl. intros Hs. by rewrite IH.
Qed.

(** The extension of a plain name after a directory part that ends
    with a slash is the extension of the name. *)
Lemma extension_after_slash (a name : string) :
  Py.plain name = true → extension ((a ++ "/") ++ name) = extension name.
Proof.
  intros Hplain.
  assert (Py.rfind "/" ((a ++ "/") ++ name) = Z.of_nat (String.length a)) as Hsep.
  { rewrite rfind_app, (rfind_plain name Hplain).
    change (0 <=? -1)%Z with false. cbv iota.
    rewrite rfind_app. change (Py.rfind "/" "/") with 0%Z.
    change (0 <=? 0)%Z with true. cbv iota. lia. }
  assert (Py.rfind "." (a ++ "/") = Py.rfind "." a) as Hpre.
  { rewrite rfind_app. change (Py.rfind "." "/") with (-1)%Z.
    change (0 <=? -1)%Z with false. reflexivity. }
  assert (String.length (a ++ "/") = String.length a + 1) as Hlen
    by (rewrite length_app; reflexivity).
  pose proof (rfind_bounds "." name) as Hd. pose proof (rfind_bounds "." a) as Ha.
  unfold extension, Py.splitext.
  rewrite Hsep, (rfind_app "." (a ++ "/") name), Hpre, Hlen, (rfind_plain name Hplain).
  destruct (0 <=? Py.rfind "." name)%Z eqn:Hdot.
  - apply Z.leb_le in Hdot.
    assert ((Z.of_nat (String.length a)
             <? Z.of_nat (String.length a + 1) + Py.rfind "." name)%Z = true) as ->
      by (apply Z.ltb_lt; lia).
    assert ((-1 <? Py.rfind "." name)%Z = true) as -> by (apply Z.ltb_lt; lia).
    replace (Z.to_nat (Z.of_nat (String.length a) + 1)) with (String.length (a ++ "/") + 0)
      by lia.
    replace (Z.to_nat (Z.of_nat (String.length a + 1) + Py.rfind "." name)
             - (String.length (a ++ "/") + 0))
      with (Z.to_nat (Py.rfind "." name) - Z.to_nat (-1 + 1)) by lia.
    rewrite has_non_dot_shift. change (Z.to_nat (-1 + 1)) with 0.
    destruct (Py.has_non_dot _ 0 name); [|reflexivity].
    replace (Z.to_nat (Z.of_nat (String.length a + 1) + Py.rfind "." name))
      with (String.length (a ++ "/") + Z.to_nat (Py.rfind "." name)) by lia.
    apply drop_shift.
  - apply Z.leb_gt in Hdot.
    assert ((Z.of_nat (String.length a) <? Py.rfind "." a)%Z = false) as ->
      by (apply Z.ltb_ge; lia).
    assert ((-1 <? Py.rfind "." name)%Z = false) as -> by (apply Z.ltb_ge; lia).
    reflexivity.
Qed.

(** The dispatcher reads from the path the extension the scanner read
    from the file name. *)
Lemma extension_join (root name : string) :
  Py.plain name = true → extension (Py.path_join root name) = extension name.
Proof.
  intros Hplain. unfold Py.path_join.
  rewrite (FsFacts.plain_not_absolute name Hplain).
  destruct (String.eqb_spec root "") as [->|Hroot]; [reflexivity|]. simpl.
  destruct (Py.endswith root "/") eqn:Hend.
  - apply FsFacts.endswith_slash in Hend as [a ->]. by apply extension_after_slash.
  - rewrite <- FsFacts.app_assoc_string. by apply extension_after_slash.
Qed.

End PathFacts.

(** ** Well-formed trees *)

Module Tree.

Import Run Notes Trace Spec Shape.
Import Fs.

Lemma name_ok_spec (name : string) :
  name_ok name = true →
  Py.plain name = true ∧ String.eqb name "" = false
  ∧ String.eqb name "." = false ∧ String.eqb name ".." = false.
Proof.
  unfold name_ok. intros H.
  apply andb_true_iff in H as [H H2]. apply andb_true_iff in H as [H H1].
  apply andb_true_iff in H as [Hp H0].
  apply negb_true_iff in H0, H1, H2. done.
Qed.

(** The components of [os.path.join(top, name)] are components that
    lead where [top] leads, followed by the name. *)
Lemma join_components (top name : string) :
  Py.plain name = true → top ≠ "" →
  ∃ cs,
    Py.split_slash (Py.path_join top name) = (cs ++ [name])%list
    ∧ Py.path_join top name ≠ ""
    ∧ ∀ fs r, canon fs top = Some r → is_dir (get fs r) = true →
              resolve fs [] cs = Some r.
Proof.
  intros Hplain Htop. unfold Py.path_join, canon.
  rewrite (FsFacts.plain_not_absolute name Hplain).
  apply String.eqb_neq in Htop. rewrite Htop. simpl.
  destruct (Py.endswith top "/") eqn:Hend.
  - apply FsFacts.endswith_slash in Hend as [a ->].
    exists (Py.split_slash a). rewrite FsFacts.app_assoc_string.
    rewrite FsFacts.split_slash_app, (FsFacts.split_slash_plain name Hplain).
    split; [reflexivity|]. split; [by destruct a|].
    intros fs r Hcanon Hdir.
    change (a ++ "/") with (a ++ "/" ++ "") in Hcanon.
    rewrite FsFacts.split_slash_app, FsFacts.resolve_app in Hcanon.
    destruct (resolve fs [] (Py.split_slash a)) as [r'|]; [|done].
    simpl in Hcanon. rewrite rev_involutive in Hcanon.
    by destruct (is_dir (get fs r')).
  - exists (Py.split_slash top).
    rewrite FsFacts.split_slash_app, (FsFacts.split_slash_plain name Hplain).
    split; [reflexivity|]. split; [by destruct top|]. by intros fs r Hcanon _.
Qed.

(** The canonical path of [os.path.join(top, name)], for a directory
    [top] and a name. *)
Lemma canon_join (fs : node) (top name : string) (r : list string) :
  canon fs top = Some r → is_dir (get fs r) = true → name_ok name = true →
  canon fs (Py.path_join top name) = Some (r ++ [name])%list.
Proof.
  intros Hcanon Hdir Hok.
  destruct (name_ok_spec name Hok) as (Hplain & H0 & H1 & H2).
  assert (top ≠ "") as Htop by (intros ->; done).
  destruct (join_components top name Hplain Htop) as (cs & Hsplit & Hne & Hres).
  unfold canon. apply String.eqb_neq in Hne. rewrite Hne, Hsplit.
  rewrite FsFacts.resolve_app, (Hres fs r Hcanon Hdir).
  by apply FsFacts.resolve_name.
Qed.

(** A path in two parts. *)
Lemma get_app (n : node) (q q' : list string) :
  get n (q ++ q') = match get n q with Some m => get m q' | None => None end.
Proof.
  revert n. induction q as [|c q IH]; intros n; simpl; [reflexivity|].
  destruct n as [content|es|]; [reflexivity| |reflexivity].
  destruct (entry c es); [apply IH|reflexivity].
Qed.

Lemma entry_elem (k : string) (v : node) (es : list (string * node)) :
  entry k es = Some v → (k, v) ∈ es.
Proof.
  induction es as [|[k0 v0] es IH]; simpl; [done|].
  destruct (String.eqb_spec k0 k) as [->|Hk].
  - intros [= ->]. apply list_elem_of_here.
  - intros H. apply list_elem_of_further. by apply IH.
Qed.

(** With no name listed twice, an entry is found under its name. *)
Lemma entry_NoDup (k : string) (v : node) (es : list (string * node)) :
  NoDup es.*1 → (k, v) ∈ es → entry k es = Some v.
Proof.
  induction es as [|[k0 v0] es IH]; simpl; intros Hnd Hin; [inversion Hin|].
  apply NoDup_cons in Hnd as [Hk0 Hnd].
  apply elem_of_cons in Hin as [[= -> ->]|Hin].
  - by rewrite String.eqb_refl.
  - destruct (String.eqb_spec k0 k) as [->|Hk]; [|by apply IH].
    destruct Hk0. apply list_elem_of_fmap. by exists (k, v).
Qed.

(** What a well-formed tree holds is well formed. *)
Lemma well_formed_get (r : list string) (fs n : node) :
  well_formed fs → get fs r = Some n → well_formed n.
Proof.
  revert fs. induction r as [|c r IH]; intros fs Hwf; simpl.
  - by intros [= <-].
  - destruct fs as [content|es|]; [done| |done].
    destruct (entry c es) as [ch|] eqn:Hentry; [|done].
    apply IH. inversion Hwf as [| |es' _ _ Hall]; subst.
    rewrite Forall_forall in Hall. apply (Hall (c, ch)). by apply entry_elem.
Qed.

(** In a well-formed tree, the path the walk gives for an entry leads
    back to it, and has the extension of its name. *)
Lemma under_resolves (fs : node) (top : string) (n : node) (p name : string) (e : node) :
  entry_under top n p name e →
  ∀ r, well_formed n → canon fs top = Some r → get fs r = Some n →
       lookup fs p = Some e ∧ extension p = extension name.
Proof.
  induction 1 as [top es name e Hin|top es d sub p name e Hd _ IH];
    intros r Hwf Hcanon Hget; inversion Hwf as [| |es' Hnd Hnames Hall]; subst.
  - rewrite Forall_forall in Hnames. pose proof (Hnames _ Hin) as Hok. simpl in Hok.
    split.
    + unfold lookup.
      rewrite (canon_join fs top name r Hcanon) by (by rewrite ?Hget).
      rewrite get_app, Hget. simpl. by rewrite (entry_NoDup name e es).
    + apply PathFacts.extension_join. by apply name_ok_spec.
  - rewrite Forall_forall in Hnames, Hall.
    pose proof (Hnames _ Hd) as Hok. pose proof (Hall _ Hd) as Hsub. simpl in Hok, Hsub.
    apply (IH (r ++ [d])%list Hsub).
    + apply canon_join; [exact Hcanon|by rewrite Hget|exact Hok].
    + rewrite get_app, Hget. simpl. by rewrite (entry_NoDup d sub es).
Qed.

(** The entries under a directory of a well-formed tree. *)
Lemma entry_resolves (fs : node) (directory : string) (n : node) (p name : string)
    (e : node) :
  well_formed fs → lookup fs directory = Some n → entry_under directory n p name e →
  lookup fs p = Some e ∧ extension p = extension name.
Proof.
  intros Hwf Hlook Hunder. unfold lookup in Hlook.
  destruct (canon fs directory) as [r|] eqn:Hcanon; [|done].
  apply (under_resolves fs directory n p name e Hunder r);
    [by apply (well_formed_get r fs)|exact Hcanon|exact Hlook].
Qed.


(** A loop that appends under a test collects the elements that pass. *)
Lemma foldl_collect {A B : Type} (test : A → bool) (f : A → B) (l : list A) (acc : list B) :
  foldl (λ acc x, if test x then (acc ++ [f x])%list else acc) acc l
  = (acc ++ (f <$> filter (λ x, test x) l))%list.
Proof.
  revert acc. induction l as [|x l IH]; intros acc; simpl.
  - by rewrite app_nil_r.
  - rewrite IH, filter_cons. destruct (test x); simpl.
    + by rewrite <- app_assoc.
    + reflexivity.
Qed.

End Tree.

(** ** What the scans return *)

Module Layout.

Import Run Notes Trace Spec Shape.


(** The spool of the scenario is one too. *)
Lemma spool_well_formed : well_formed Scenario.spool.
Proof.
  unfold Scenario.spool.
  repeat first
    [ apply wf_file | apply wf_other | apply wf_dir
    | apply Forall_nil_2 | apply Forall_cons_2
    | reflexivity
    | solve [ simpl;
              repeat (apply NoDup_cons_2;
                      [ intros Hin;
                        repeat (apply elem_of_cons in Hin as [Hin|Hin]; [discriminate Hin|]);
                        inversion Hin | ]);
              apply NoDup_nil_2 ] ].
Qed.


(** X4. [get_first_level_folders] on a directory returns the names of
    its sub-directories that do not start with a dot and whose path is
    not the projects directory of the user, and nothing else. On a path
    that names something that is not a directory it raises
    [NotADirectoryError]. On a path that names nothing it raises the
    error of [os.scandir]: [NotADirectoryError] when the path goes
    through an entry that is not a directory, and [FileNotFoundError]
    otherwise. *)
Theorem first_level_folders_listed (home_projects : string) (fs : Fs.node)
    (directory : string) :
  match Fs.lookup fs directory with
  | Some (Fs.Dir es) =>
      ∃ folders,
        get_first_level_folders home_projects fs directory = Returns folders
        ∧ ∀ name, name ∈ folders
                  ↔ (∃ sub, (name, Fs.Dir sub) ∈ es)
                    ∧ Py.startswith name "." = false
                    ∧ Py.path_join directory name ≠ home_projects
  | Some _ =>
      get_first_level_folders home_projects fs directory
      = Raises (OSError NotADirectoryError)
  | None =>
      ∃ e,
        get_first_level_folders home_projects fs directory = Raises (OSError e)
        ∧ (e = NotADirectoryError ↔ through_non_directory fs directory)
        ∧ (e = FileNotFoundError ∨ e = NotADirectoryError)
  end.
Proof.
  unfold get_first_level_folders, Fs.scandir.
  destruct (Fs.lookup fs directory) as [[content|es|]|];
    [reflexivity| |reflexivity|].
  - eexists. split; [reflexivity|]. intros name.
    rewrite (Tree.foldl_collect
               (λ entry, Fs.de_is_dir entry && negb (Py.startswith (Fs.de_name entry) ".")
                         && negb (String.eqb (Fs.de_path entry) home_projects))
               Fs.de_name).
    rewrite app_nil_l, list_elem_of_fmap. split.
    + intros (entry & -> & Hin). apply list_elem_of_filter in Hin as [Htest Hin].
      apply list_elem_of_fmap in Hin as ([k n] & -> & Hin). simpl in Htest |- *.
      apply Is_true_true, andb_true_iff in Htest as [Htest Hpath].
      apply andb_true_iff in Htest as [Hdir Hdot].
      apply negb_true_iff in Hdot, Hpath. apply String.eqb_neq in Hpath.
      destruct n as [content|sub|]; [done| |done]. split; [by exists sub|done].
    + intros ([sub Hin] & Hdot & Hpath).
      exists (Fs.dir_entry_of directory (name, Fs.Dir sub)). split; [reflexivity|].
      apply list_elem_of_filter. split.
      * simpl. rewrite Hdot. apply String.eqb_neq in Hpath. by rewrite Hpath.
      * apply list_elem_of_fmap. by exists (name, Fs.Dir sub).
  - exists (Fs.errno fs directory). split; [reflexivity|apply FsFacts.errno_spec].
Qed.

(** X5. [get_files_in_folder] on a directory returns the paths of the
    regular files it lists, [os.path.join] of the folder and the name,
    and nothing else: it does not go into the sub-directories, and it
    leaves out the entries that are neither directories nor regular
    files. It raises as [os.scandir] does: [NotADirectoryError] on a
    path that names something that is not a directory or goes through
    such an entry, [FileNotFoundError] on any other path that names
    nothing. *)
Theorem files_in_folder_listed (fs : Fs.node) (folder : string) :
  match Fs.lookup fs folder with
  | Some (Fs.Dir es) =>
      ∃ files,
        get_files_in_folder fs folder = Returns files
        ∧ ∀ p, p ∈ files
               ↔ ∃ name content, (name, Fs.File content) ∈ es
                                 ∧ p = Py.path_join folder name
  | Some _ => get_files_in_folder fs folder = Raises (OSError NotADirectoryError)
  | None =>
      ∃ e,
        get_files_in_folder fs folder = Raises (OSError e)
        ∧ (e = NotADirectoryError ↔ through_non_directory fs folder)
        ∧ (e = FileNotFoundError ∨ e = NotADirectoryError)
  end.
Proof.
  unfold get_files_in_folder, Fs.scandir.
  destruct (Fs.lookup fs folder) as [[content|es|]|]; [reflexivity| |reflexivity|].
  - eexists. split; [reflexivity|]. intros p.
    rewrite (Tree.foldl_collect Fs.de_is_file Fs.de_path).
    rewrite app_nil_l, list_elem_of_fmap. split.
    + intros (entry & -> & Hin). apply list_elem_of_filter in Hin as [Htest Hin].
      apply list_elem_of_fmap in Hin as ([k n] & -> & Hin). simpl in Htest |- *.
      destruct n as [content|sub|]; [|done|done]. by exists k, content.
    + intros (name & content & Hin & ->).
      exists (Fs.dir_entry_of folder (name, Fs.File content)). split; [reflexivity|].
      apply list_elem_of_filter. split; [done|].
      apply list_elem_of_fmap. by exists (name, Fs.File content).
  - exists (Fs.errno fs folder). split; [reflexivity|apply FsFacts.errno_spec].
Qed.



(** X7. In a well-formed tree, no path [get_file_list] returns names a
    directory, and the extension of the path, which is what the
    dispatcher will look at, is in the allowed set once put in lower
    case. The path need not name a regular file: the scan does not test
    for one, and returns a FIFO, a socket or a device whose name has
    such an extension. *)
Theorem scanned_paths_are_not_directories (fs : Fs.node) (directory : string)
    (allowed : gset string) (p : string) :
  well_formed fs →
  p ∈ get_file_list fs directory allowed →
  Fs.isdir fs p = false ∧ Py.lower (extension p) ∈ allowed.
Proof.
  intros Hwf Hp.
  apply Scan.get_file_list_exact in Hp as (name & (n & e & Hlook & Hunder & He) & Hext).
  destruct (Tree.entry_resolves fs directory n p name e Hwf Hlook Hunder) as [Hpath Hsame].
  split; [|by rewrite Hsame]. unfold Fs.isdir. by rewrite Hpath.
Qed.

Lemma scanned_paths_witness :
  (Fs.isdir Scenario.spool "/pipe.pdf" = false
   ∧ Py.lower (extension "/pipe.pdf") ∈ ({[ ".pdf"; ".epub"; ".md" ]} : gset string))
  ∧ Fs.isfile Scenario.spool "/pipe.pdf" = false.
Proof.
  split; [|reflexivity].
  apply (scanned_paths_are_not_directories Scenario.spool "/"
           {[ ".pdf"; ".epub"; ".md" ]} "/pipe.pdf").
  - exact spool_well_formed.
  - assert (get_file_list Scenario.spool "/" {[ ".pdf"; ".epub"; ".md" ]}
            = [ "/pipe.pdf"; "/in/scan.PDF" ]) as -> by (by vm_compute).
    set_solver.
Defined.

(** X8. A file whose extension is allowed once put in lower case, but is
    not written in lower case, is kept by the scan and refused by both
    dispatch sites, which compare the extension as it is written: it is
    offered for selection and then reported as an unsupported type. *)
Theorem upper_case_extension_listed_not_opened (env : environment)
    (allowed : gset string) (root : string) (files : list string) (name : string)
    (w : world) :
  Py.plain name = true →
  Py.lower (extension name) ∈ allowed →
  Py.lower (extension name) ≠ extension name →
  keep_file allowed root files name = (files ++ [Py.path_join root name])%list
  ∧ open_file_with_appropriate_viewer env (Py.path_join root name) w
    = (Returns tt, printed unsupported w)
  ∧ open_file_dispatch env (Py.path_join root name) w = (Returns tt, printed unsupported w).
Proof.
  intros Hplain Hallowed Hcase.
  assert (∀ e, Py.lower e = e → extension (Py.path_join root name) ≠ e) as Hne.
  { intros e He Heq. rewrite (PathFacts.extension_join root name Hplain) in Heq.
    apply Hcase. by rewrite Heq. }
  split; [|split].
  - unfold keep_file. fold (extension name). by rewrite bool_decide_eq_true_2.
  - apply Dispatch.viewer_unsupported; by apply Hne.
  - apply Dispatch.dispatch_unsupported; by apply Hne.
Qed.

Lemma upper_case_extension_witness :
  keep_file {[ ".pdf"; ".epub"; ".md" ]} "/home/u/GoogleDrive" [] "b.PDF"
  = ["/home/u/GoogleDrive/b.PDF"]
  ∧ open_file_with_appropriate_viewer (Scenario.scripted 0 "")
      "/home/u/GoogleDrive/b.PDF" Scenario.start
    = (Returns tt, printed unsupported Scenario.start)
  ∧ open_file_dispatch (Scenario.scripted 0 "") "/home/u/GoogleDrive/b.PDF" Scenario.start
    = (Returns tt, printed unsupported Scenario.start).
Proof.
  apply (upper_case_extension_listed_not_opened (Scenario.scripted 0 "")
           {[ ".pdf"; ".epub"; ".md" ]} "/home/u/GoogleDrive" [] "b.PDF" Scenario.start).
  - reflexivity.
  - by vm_compute.
  - by vm_compute.
Defined.

End Layout.

(** ** Creating directories and files *)

Module Scaffold.

Import Run Notes Trace Spec Shape.
Import Fs.

Lemma upsert_ext (c : string) (f g : option node → node) (es : list (string * node)) :
  (∀ o, f o = g o) → upsert c f es = upsert c g es.
Proof.
  intros Hfg. induction es as [|[k n] es IH]; simpl.
  - by rewrite Hfg.
  - destruct (String.eqb k c); [by rewrite Hfg|by rewrite IH].
Qed.

Lemma upsert_upsert (c : string) (f g : option node → node) (es : list (string * node)) :
  upsert c g (upsert c f es) = upsert c (λ o, g (Some (f o))) es.
Proof.
  induction es as [|[k n] es IH]; simpl.
  - by rewrite String.eqb_refl.
  - destruct (String.eqb k c) eqn:Hk; simpl; rewrite Hk; [reflexivity|by rewrite IH].
Qed.

(** Putting below what was just put is putting the two at once. *)
Lemma put_put (q s : list string) (v m n : node) :
  put (q ++ s) v (put q m n) = put q (put s v m) n.
Proof.
  revert n. induction q as [|c q IH]; intros n; [reflexivity|].
  destruct n as [content|es|]; [reflexivity| |reflexivity].
  simpl. rewrite upsert_upsert. f_equal. apply upsert_ext. intros o. apply IH.
Qed.

(** Reading below what was put in an existing directory. *)
Lemma get_put_below (q : list string) (c : string) (s : list string) (v n : node) :
  is_dir (get n q) = true → get (put (q ++ [c]) v n) ((q ++ [c]) ++ s) = get v s.
Proof.
  intros Hdir. by rewrite Tree.get_app, FsFacts.get_put.
Qed.

(** A new entry leaves the directories that were there directories. *)
Lemma is_dir_put_new (q : list string) (c : string) (v n : node) (p : list string) :
  is_dir (get n q) = true → get n (q ++ [c]) = None →
  is_dir (get n p) = true → is_dir (get (put (q ++ [c]) v n) p) = true.
Proof.
  revert n p. induction q as [|d q IH]; intros n p; simpl.
  - destruct n as [x|es|]; [done| |done]. intros _ Hnew. destruct p as [|k p]; [done|].
    simpl. rewrite FsFacts.entry_upsert. destruct (String.eqb_spec c k) as [->|Hck]; [|done].
    by destruct (entry k es).
  - destruct n as [x|es|]; [done| |done]. destruct (entry d es) as [ch|] eqn:Hd; [|done].
    intros Hq Hnew. destruct p as [|k p]; [done|].
    simpl. rewrite FsFacts.entry_upsert. destruct (String.eqb_spec d k) as [->|Hdk]; [|done].
    rewrite Hd. by apply IH.
Qed.

(** Resolution in a tree with more directories. *)
Lemma resolve_mono (fs fs' : node) (cs acc r : list string) :
  (∀ p, is_dir (get fs p) = true → is_dir (get fs' p) = true) →
  resolve fs acc cs = Some r → resolve fs' acc cs = Some r.
Proof.
  intros Hmono. revert acc. induction cs as [|c cs IH]; intros acc; simpl; [done|].
  destruct (is_dir (get fs (rev acc))) eqn:Hdir; [|done]. rewrite (Hmono _ Hdir).
  destruct (String.eqb c "" || String.eqb c "."); [apply IH|].
  destruct (String.eqb c ".."); apply IH.
Qed.

Lemma canon_put_new (fs : node) (q : list string) (c : string) (v : node)
    (path : string) (r : list string) :
  is_dir (get fs q) = true → get fs (q ++ [c]) = None →
  canon fs path = Some r → canon (put (q ++ [c]) v fs) path = Some r.
Proof.
  intros Hdir Hnew. unfold canon. destruct (String.eqb path ""); [done|].
  apply resolve_mono. intros p. by apply is_dir_put_new.
Qed.

(** A resolution that ends in a directory started from one. *)
Lemma resolve_from_dir (fs : node) (cs acc r : list string) :
  resolve fs acc cs = Some r → is_dir (get fs r) = true →
  is_dir (get fs (rev acc)) = true.
Proof.
  destruct cs as [|c cs]; simpl.
  - by intros [= <-].
  - by destruct (is_dir (get fs (rev acc))).
Qed.

(** [os.makedirs] passes over the directories that exist. *)
Lemma makedirs_along (fs : node) (cs rest acc r : list string) (fresh : bool) :
  resolve fs acc cs = Some r → is_dir (get fs r) = true →
  ∃ fresh', makedirs_from fs acc fresh (cs ++ rest) = makedirs_from fs (rev r) fresh' rest.
Proof.
  revert acc fresh. induction cs as [|c cs IH]; intros acc fresh.
  - simpl. intros [= <-] _. exists fresh. by rewrite rev_involutive.
  - intros Hres Hdir. pose proof Hres as Hres'. simpl in Hres'.
    destruct (is_dir (get fs (rev acc))); [|done]. cbn [app makedirs_from].
    destruct (String.eqb c "" || String.eqb c "."); [by apply IH|].
    destruct (String.eqb c ".."); [by apply IH|].
    pose proof (resolve_from_dir fs cs (c :: acc) r Hres' Hdir) as Hc.
    destruct (get fs (rev (c :: acc))) as [[x|es|]|]; [done| |done|done].
    by apply IH.
Qed.

(** [os.makedirs] of a new name in a directory that exists. *)
Lemma makedirs_new (fs : node) (top name : string) (r : list string) :
  canon fs top = Some r → is_dir (get fs r) = true → name_ok name = true →
  get fs (r ++ [name]) = None →
  makedirs fs (Py.path_join top name) = Returns (put (r ++ [name]) (Dir []) fs).
Proof.
  intros Hcanon Hdir Hok Hnew.
  destruct (Tree.name_ok_spec name Hok) as (Hplain & H0 & H1 & H2).
  assert (top ≠ "") as Htop by (intros ->; done).
  destruct (Tree.join_components top name Hplain Htop) as (cs & Hsplit & Hne & Hres).
  unfold makedirs. apply String.eqb_neq in Hne. rewrite Hne, Hsplit.
  destruct (makedirs_along fs cs [name] [] r false (Hres fs r Hcanon Hdir) Hdir)
    as [fresh' ->].
  cbn [makedirs_from]. rewrite H0, H1, H2. cbn [orb].
  cbn [rev]. rewrite rev_involutive, Hnew. reflexivity.
Qed.

(** [open(path, "w")] of a new name in a directory that exists. *)
Lemma write_new_in (fs : node) (top name content : string) (r : list string) :
  canon fs top = Some r → is_dir (get fs r) = true → name_ok name = true →
  get fs (r ++ [name]) = None →
  write fs (Py.path_join top name) content = Returns (put (r ++ [name]) (File content) fs).
Proof.
  intros Hcanon Hdir Hok Hnew. unfold write.
  by rewrite (Tree.canon_join fs top name r Hcanon Hdir Hok), Hnew.
Qed.

(** A plain character is not a slash. *)
Lemma substring_plain (s : string) (i : nat) :
  Py.plain s = true → String.eqb (String.substring i 1 s) "/" = false.
Proof.
  revert i. induction s as [|c s IH]; intros i; [by destruct i|].
  simpl. destruct (Ascii.eqb c "/") eqn:Hc; [done|]. simpl. intros Hs.
  destruct i as [|i]; [|by apply IH].
  destruct s; simpl; by rewrite Hc.
Qed.

(** A path that ends with a name does not end with a slash. *)
Lemma endswith_join (top name : string) :
  name_ok name = true → Py.endswith (Py.path_join top name) "/" = false.
Proof.
  intros Hok. destruct (Tree.name_ok_spec name Hok) as (Hplain & H0 & _ & _).
  assert (∃ x, Py.path_join top name = x ++ name) as [x ->].
  { unfold Py.path_join. rewrite (FsFacts.plain_not_absolute name Hplain).
    destruct (String.eqb top "" || Py.endswith top "/"); [by exists top|].
    exists (top ++ "/"). by rewrite FsFacts.app_assoc_string. }
  unfold Py.endswith. rewrite PathFacts.length_app. change (String.length "/") with 1.
  assert (String.length name ≠ 0) as Hlen by (destruct name; done).
  replace (String.length x + String.length name - 1)
    with (String.length x + (String.length name - 1)) by lia.
  rewrite PathFacts.substring_shift, (substring_plain name _ Hplain).
  apply andb_false_r.
Qed.

(** [os.path.join] of a path that ends with a name and a relative
    path. *)
Lemma join_after_name (top name rel : string) :
  top ≠ "" → name_ok name = true → Py.startswith rel "/" = false →
  Py.path_join (Py.path_join top name) rel = Py.path_join top name ++ "/" ++ rel.
Proof.
  intros Htop Hok Hrel. unfold Py.path_join at 1.
  rewrite Hrel, (endswith_join top name Hok).
  destruct (Tree.name_ok_spec name Hok) as (Hplain & _).
  destruct (Tree.join_components top name Hplain Htop) as (cs & _ & Hne & _).
  apply String.eqb_neq in Hne. by rewrite Hne.
Qed.

(** The project directory once a tree was put there. *)
Lemma in_project (fs : node) (r0 : list string) (name : string) (t : node)
    (top : string) :
  is_dir (get fs r0) = true → get fs (r0 ++ [name]) = None →
  canon fs top = Some (r0 ++ [name])%list →
  canon (put (r0 ++ [name]) t fs) top = Some (r0 ++ [name])%list
  ∧ ∀ s, get (put (r0 ++ [name]) t fs) ((r0 ++ [name]) ++ s) = get t s.
Proof.
  intros Hdir Hnew Hcanon. split.
  - by apply canon_put_new.
  - intros s. by apply get_put_below.
Qed.

End Scaffold.

(** ** The projects of the two templates *)

Module Project.

Import Run Notes Trace Spec Shape.

(** Where a new project goes: the directory resolves to an existing
    directory, and the project path to a new entry of it. *)
Lemma project_place (fs0 : Fs.node) (D project_name : string) :
  Fs.isdir fs0 D = true →
  name_ok project_name = true →
  Fs.exists_ fs0 (Py.path_join D project_name) = false →
  ∃ r0,
    Fs.canon fs0 D = Some r0
    ∧ Fs.is_dir (Fs.get fs0 r0) = true
    ∧ Fs.get fs0 (r0 ++ [project_name]) = None
    ∧ Fs.canon fs0 (Py.path_join D project_name) = Some (r0 ++ [project_name])%list.
Proof.
  intros Hisdir Hok Hfresh. unfold Fs.isdir, Fs.lookup in Hisdir.
  destruct (Fs.canon fs0 D) as [r0|] eqn:HcanonD; [|done].
  pose proof (Tree.canon_join fs0 D project_name r0 HcanonD Hisdir Hok) as HcanonP.
  exists r0. split; [reflexivity|]. split; [exact Hisdir|]. split; [|exact HcanonP].
  unfold Fs.exists_, Fs.lookup in Hfresh. rewrite HcanonP in Hfresh.
  by destruct (Fs.get fs0 (r0 ++ [project_name])).
Qed.

(** The project path names the tree put there. *)
Lemma project_lookup (fs0 : Fs.node) (r0 : list string) (name top : string) (t : Fs.node) :
  Fs.is_dir (Fs.get fs0 r0) = true → Fs.get fs0 (r0 ++ [name]) = None →
  Fs.canon fs0 top = Some (r0 ++ [name])%list →
  Fs.lookup (Fs.put (r0 ++ [name]) t fs0) top = Some t.
Proof.
  intros Hdir Hnew Hcanon.
  destruct (Scaffold.in_project fs0 r0 name t top Hdir Hnew Hcanon) as [Hc Hg].
  unfold Fs.lookup. rewrite Hc. specialize (Hg []). by rewrite app_nil_r in Hg.
Qed.

(** One folder of a template, and one item of a folder, in a project
    directory that holds the tree [t]. *)
Lemma folder_step (fs0 : Fs.node) (r0 : list string) (name top folder : string)
    (t : Fs.node) :
  Fs.is_dir (Fs.get fs0 r0) = true → Fs.get fs0 (r0 ++ [name]) = None →
  Fs.canon fs0 top = Some (r0 ++ [name])%list →
  Fs.is_dir (Some t) = true → Fs.get t [folder] = None → name_ok folder = true →
  Fs.makedirs (Fs.put (r0 ++ [name]) t fs0) (Py.path_join top folder)
  = Returns (Fs.put (r0 ++ [name]) (Fs.put [folder] (Fs.Dir []) t) fs0).
Proof.
  intros Hdir Hnew Hcanon Ht Hfolder Hok.
  destruct (Scaffold.in_project fs0 r0 name t top Hdir Hnew Hcanon) as [Hc Hg].
  rewrite (Scaffold.makedirs_new _ top folder (r0 ++ [name]) Hc).
  - by rewrite Scaffold.put_put.
  - specialize (Hg []). rewrite app_nil_r in Hg. by rewrite Hg.
  - exact Hok.
  - by rewrite Hg.
Qed.

Lemma item_step (fs0 : Fs.node) (r0 : list string) (name top folder item : string)
    (t : Fs.node) :
  Fs.is_dir (Fs.get fs0 r0) = true → Fs.get fs0 (r0 ++ [name]) = None →
  Fs.canon fs0 top = Some (r0 ++ [name])%list →
  Fs.is_dir (Fs.get t [folder]) = true → Fs.get t [folder; item] = None →
  name_ok folder = true → name_ok item = true →
  Fs.write (Fs.put (r0 ++ [name]) t fs0) (Py.path_join (Py.path_join top folder) item) ""
  = Returns (Fs.put (r0 ++ [name]) (Fs.put [folder; item] (Fs.File "") t) fs0).
Proof.
  intros Hdir Hnew Hcanon Hfolder Hitem Hokf Hoki.
  destruct (Scaffold.in_project fs0 r0 name t top Hdir Hnew Hcanon) as [Hc Hg].
  assert (Fs.is_dir (Fs.get (Fs.put (r0 ++ [name]) t fs0) (r0 ++ [name])) = true) as Hroot.
  { specialize (Hg []). rewrite app_nil_r in Hg. rewrite Hg.
    destruct t as [x|es|]; [by destruct x|done|done]. }
  rewrite (Scaffold.write_new_in _ (Py.path_join top folder) item ""
             ((r0 ++ [name]) ++ [folder])).
  - by rewrite <- app_assoc, Scaffold.put_put.
  - by apply Tree.canon_join.
  - by rewrite Hg.
  - exact Hoki.
  - by rewrite <- app_assoc, Hg.
Qed.

(** A folder given with a slash, as [notes/reference] is: a new folder
    of an existing folder of the project. *)
Lemma nested_folder_step (fs0 : Fs.node) (r0 : list string) (D name folder sub : string)
    (t : Fs.node) :
  Fs.is_dir (Fs.get fs0 r0) = true → Fs.get fs0 (r0 ++ [name]) = None →
  D ≠ "" → name_ok name = true →
  Fs.canon fs0 (Py.path_join D name) = Some (r0 ++ [name])%list →
  Fs.is_dir (Fs.get t [folder]) = true → Fs.get t [folder; sub] = None →
  name_ok folder = true → name_ok sub = true →
  Fs.makedirs (Fs.put (r0 ++ [name]) t fs0)
    (Py.path_join (Py.path_join D name) (folder ++ "/" ++ sub))
  = Returns (Fs.put (r0 ++ [name]) (Fs.put [folder; sub] (Fs.Dir []) t) fs0).
Proof.
  intros Hdir Hnew HD Hokn Hcanon Hfolder Hsub Hokf Hoks.
  destruct (Tree.name_ok_spec folder Hokf) as (Hplain & _).
  assert (Py.path_join D name ≠ "") as HP by (intros HP; rewrite HP in Hcanon; done).
  assert (Py.path_join (Py.path_join D name) (folder ++ "/" ++ sub)
          = Py.path_join (Py.path_join (Py.path_join D name) folder) sub) as ->.
  { rewrite (Scaffold.join_after_name D name (folder ++ "/" ++ sub)); [|done..|].
    - rewrite (Scaffold.join_after_name (Py.path_join D name) folder sub); [|done..|].
      + rewrite (Scaffold.join_after_name D name folder); [|done..|].
        * by rewrite !FsFacts.app_assoc_string.
        * by apply FsFacts.plain_not_absolute.
      + apply FsFacts.plain_not_absolute. by apply Tree.name_ok_spec.
    - destruct folder as [|c folder]; [done|]. rewrite FsFacts.app_cons.
      unfold Py.startswith. cbn [String.prefix].
      destruct (ascii_dec "/" c) as [<-|_]; [|reflexivity].
      cbn [Py.plain] in Hplain. done. }
  destruct (Scaffold.in_project fs0 r0 name t _ Hdir Hnew Hcanon) as [Hc Hg].
  rewrite (Scaffold.makedirs_new _ (Py.path_join (Py.path_join D name) folder) sub
             ((r0 ++ [name]) ++ [folder])).
  - by rewrite <- app_assoc, Scaffold.put_put.
  - apply Tree.canon_join; [exact Hc| |exact Hokf].
    specialize (Hg []). rewrite app_nil_r in Hg. rewrite Hg.
    destruct t as [x|es|]; [by destruct x|done|done].
  - by rewrite Hg.
  - exact Hoks.
  - by rewrite <- app_assoc, Hg.
Qed.

(** The run of [create_project] with the default template: the project
    directory, the folder [notes], the file [notes.md], the folder
    [notes/reference], the success line, and [git_init] if asked. *)
Lemma default_steps (env : environment) (project_name : string) (git : bool)
    (directory : string) (w : world) (r0 : list string) :
  Fs.canon (fs w) (expanduser env directory) = Some r0 →
  Fs.is_dir (Fs.get (fs w) r0) = true →
  name_ok project_name = true →
  Fs.get (fs w) (r0 ++ [project_name]) = None →
  create_project env project_name "default" git directory w
  = (if git then git_init env (project_path env project_name directory) else mret tt)
      (printed (project_created project_name "default")
         (with_fs (Fs.put (r0 ++ [project_name]) default_tree (fs w)) w)).
Proof.
  intros HcanonD Hisdir Hok Hnew. unfold project_path.
  set (D := expanduser env directory) in *.
  pose proof (Tree.canon_join (fs w) D project_name r0 HcanonD Hisdir Hok) as HcanonP.
  assert (D ≠ "") as HD by (intros HD; rewrite HD in HcanonD; done).
  assert (Fs.exists_ (fs w) (Py.path_join D project_name) = false) as Hfresh
    by (unfold Fs.exists_, Fs.lookup; by rewrite HcanonP, Hnew).
  pose proof (Scaffold.makedirs_new (fs w) D project_name r0 HcanonD Hisdir Hok Hnew) as H0.
  pose proof (λ t folder, folder_step (fs w) r0 project_name _ folder t
                            Hisdir Hnew HcanonP) as Hfolder.
  pose proof (λ t folder item, item_step (fs w) r0 project_name _ folder item t
                                 Hisdir Hnew HcanonP) as Hitem.
  pose proof (λ t, nested_folder_step (fs w) r0 D project_name "notes" "reference" t
                     Hisdir Hnew HD Hok HcanonP) as Hnested.
  change ("notes" ++ "/" ++ "reference") with "notes/reference" in Hnested.
  assert (project_templates !! "default"
          = Some [ ("notes", PList [PStr "notes.md"]); ("notes/reference", PList []) ])
    as Htemplate by reflexivity.
  unfold create_project, reading, mbind, M_bind. fold D.
  rewrite Hfresh, Htemplate.
  unfold changing at 1. rewrite H0.
  cbn [for_each iterate]. unfold mbind, M_bind, create_item, changing, mret, M_ret, print.
  cbv beta iota zeta. cbn [fs procs console].
  rewrite Hfolder by reflexivity. cbv beta iota zeta. cbn [fs procs console].
  rewrite Hitem by reflexivity. cbv beta iota zeta. cbn [fs procs console].
  rewrite Hnested by reflexivity. cbv beta iota zeta. cbn [fs procs console].
  fold (project_created project_name "default").
  rewrite Create.accepts_project_created; [reflexivity| |reflexivity].
  by apply Tree.name_ok_spec.
Qed.





(** X16. No overwrite. After the default project was made (without
    [git]), a second call for the same name and directory, whatever the
    template and the [git] flag, prints that the project already exists
    and leaves the tree and the list of launched programs as they were. *)
Theorem create_project_twice (env : environment) (project_name : string)
    (directory template : string) (git : bool) (w w1 : world) :
  Fs.isdir (fs w) (expanduser env directory) = true →
  name_ok project_name = true →
  Fs.exists_ (fs w) (project_path env project_name directory) = false →
  create_project env project_name "default" false directory w = (Returns tt, w1) →
  create_project env project_name template git directory w1
  = (Returns tt, printed (project_exists project_name) w1).
Proof.
  intros Hisdir Hok Hfresh Hfirst.
  destruct (project_place (fs w) _ project_name Hisdir Hok Hfresh)
    as (r0 & HcanonD & Hdir & Hnew & HcanonP).
  rewrite (default_steps env project_name false directory w r0 HcanonD Hdir Hok Hnew)
    in Hfirst.
  injection Hfirst as <-.
  rewrite Create.create_project_existing.
  - apply Create.print_project_exists. by apply Tree.name_ok_spec.
  - unfold Fs.exists_. cbn [fs with_fs printed]. unfold project_path.
    by rewrite (project_lookup (fs w) r0 project_name _ _ Hdir Hnew HcanonP).
Qed.

Lemma create_project_twice_witness :
  create_project (Scenario.scripted 0 "") "bar" "webapp" true "~/GoogleDrive/Projects"
    {| fs := Fs.put ["home"; "u"; "GoogleDrive"; "Projects"; "bar"] default_tree
               Scenario.drive;
       procs := [];
       console := [project_created "bar" "default"] |}
  = (Returns tt,
     {| fs := Fs.put ["home"; "u"; "GoogleDrive"; "Projects"; "bar"] default_tree
                Scenario.drive;
        procs := [];
        console := [project_created "bar" "default"; project_exists "bar"] |}).
Proof.
  apply (create_project_twice (Scenario.scripted 0 "") "bar" "~/GoogleDrive/Projects"
           "webapp" true Scenario.start); by vm_compute.
Defined.



End Project.

(** ** Labels and candidates *)

Module Labels.

Import Run Notes Trace Spec Shape.












(** A label that ends with a space does not come back: the candidate
    [a.md ], whose name ends with a space, is shown as it is, the
    selector writes it, [strip] cuts the space, and no candidate ends
    with what is left. *)
Example label_with_trailing_space :
  Shape.trimmed "a.md " = false
  ∧ Notes.fzf_select (Scenario.scripted 0 ("a.md " ++ Scenario.newline))
      ["/home/u/GoogleDrive/a.md "] Scenario.start
    = (Raises StopIteration,
       Trace.waited (Trace.selector "a.md ")
         {| returncode := 0; stdout := "a.md " ++ Scenario.newline;
            fs_after := Scenario.drive |}
         Scenario.start).
Proof. split; reflexivity. Qed.

End Labels.
